(** * verify-privacy-sdk-js: the [Privacy] class of [lib/privacy.js]

    A shallow embedding of the constructor, of [assess] and of
    [getConsentMetadata], and the properties of the assessment aggregator and
    of the metadata normalizer that the specification states about them.

    JavaScript values are finite trees of JSON-like data; the two asynchronous
    methods run in a small state-and-exception monad whose state holds the log
    of the calls made to the consent service client and the heap cells of the
    request items the caller handed in. *)

From Stdlib Require Import String Ascii List ZArith Bool Lia DecimalString.
From Stdlib Require Import Permutation.
Import ListNotations.
Local Open Scope string_scope.
Local Open Scope list_scope.

(** ** JavaScript values *)

(** Values as the code sees them: what [JSON.parse] produces, plus
    [undefined].  Numbers are the integral ones.  An object is its list of own
    properties, in insertion order, one binding per key. *)
#[warnings="-register-all"] Inductive JsVal : Type :=
| VUndefined
| VNull
| VBool (b : bool)
| VNum (n : Z)
| VStr (s : string)
| VArr (elems : list JsVal)
| VObj (props : list (string * JsVal)).

Definition JsObj : Type := list (string * JsVal).

(** What a [throw] carries (and what a rejected promise is rejected with): a
    value thrown by the collaborator, the [TypeError] the runtime raises when a
    property of [undefined] or [null] is read, or the [ConfigurationError] of
    the constructor. *)
Inductive Exn : Type :=
| Thrown (v : JsVal)
| TypeError
| ConfigurationError (message : string).

(** The completion of an evaluation; for an [async] function, [Normal v] is a
    promise fulfilled with [v] and [Throw e] a promise rejected with [e]. *)
Inductive Completion (A : Type) : Type :=
| Normal (a : A)
| Throw (e : Exn).
Arguments Normal {A} a.
Arguments Throw {A} e.

(** A property key: an identifier ([ia.result]) or an index ([result[0]]). *)
Inductive PropKey : Type :=
| KName (name : string)
| KIndex (i : nat).

Definition string_of_nat (n : nat) : string :=
  NilZero.string_of_uint (Nat.to_uint n).

Definition string_of_Z (n : Z) : string :=
  NilZero.string_of_int (Z.to_int n).

Definition key_string (k : PropKey) : string :=
  match k with
  | KName name => name
  | KIndex i => string_of_nat i
  end.

Fixpoint obj_lookup (props : JsObj) (k : string) : option JsVal :=
  match props with
  | [] => None
  | (k', v) :: rest => if String.eqb k' k then Some v else obj_lookup rest k
  end.

(** [o[k]] on an object: [undefined] when the property is missing. *)
Definition obj_get (props : JsObj) (k : string) : JsVal :=
  match obj_lookup props k with
  | Some v => v
  | None => VUndefined
  end.

(** [o[k] = v] on an object: overwrite the binding, or add it at the end. *)
Fixpoint obj_set (props : JsObj) (k : string) (v : JsVal) : JsObj :=
  match props with
  | [] => [(k, v)]
  | (k', v') :: rest =>
      if String.eqb k' k then (k', v) :: rest else (k', v') :: obj_set rest k v
  end.

Definition char_at (s : string) (i : nat) : JsVal :=
  match String.get i s with
  | Some c => VStr (String c EmptyString)
  | None => VUndefined
  end.

(** [v[k]] / [v.k].  Reading a property of [undefined] or [null] raises a
    [TypeError]; on the other primitives the keys the code uses resolve to
    [undefined], except an index into a string and [length]. *)
Definition get_prop (v : JsVal) (k : PropKey) : Completion JsVal :=
  match v with
  | VUndefined | VNull => Throw TypeError
  | VBool _ | VNum _ => Normal VUndefined
  | VStr s =>
      match k with
      | KIndex i => Normal (char_at s i)
      | KName name =>
          if String.eqb name "length" then Normal (VNum (Z.of_nat (String.length s)))
          else Normal VUndefined
      end
  | VArr elems =>
      match k with
      | KIndex i => Normal (nth i elems VUndefined)
      | KName name =>
          if String.eqb name "length" then Normal (VNum (Z.of_nat (List.length elems)))
          else Normal VUndefined
      end
  | VObj props => Normal (obj_get props (key_string k))
  end.

(** [ToBoolean]. *)
Definition truthy (v : JsVal) : bool :=
  match v with
  | VUndefined | VNull => false
  | VBool b => b
  | VNum n => negb (Z.eqb n 0)
  | VStr s => negb (String.eqb s "")
  | VArr _ | VObj _ => true
  end.

(** [v == null]. *)
Definition is_nullish (v : JsVal) : bool :=
  match v with
  | VUndefined | VNull => true
  | _ => false
  end.

(** [v === "lit"] against a string literal. *)
Definition strict_eq_str (v : JsVal) (lit : string) : bool :=
  match v with
  | VStr s => String.eqb s lit
  | _ => false
  end.

Definition Array_isArray (v : JsVal) : bool :=
  match v with
  | VArr _ => true
  | _ => false
  end.

Definition typeof (v : JsVal) : string :=
  match v with
  | VUndefined => "undefined"
  | VNull => "object"
  | VBool _ => "boolean"
  | VNum _ => "number"
  | VStr _ => "string"
  | VArr _ | VObj _ => "object"
  end.

(** [ToString], as a template literal applies it to each substitution. *)
Fixpoint to_string (v : JsVal) : string :=
  match v with
  | VUndefined => "undefined"
  | VNull => "null"
  | VBool true => "true"
  | VBool false => "false"
  | VNum n => string_of_Z n
  | VStr s => s
  | VArr elems =>
      (fix join (l : list JsVal) : string :=
         match l with
         | [] => ""
         | x :: rest =>
             ((match x with
               | VUndefined | VNull => ""
               | _ => to_string x
               end)
              ++ (match rest with
                  | [] => ""
                  | _ :: _ => "," ++ join rest
                  end))%string
         end) elems
  | VObj _ => "[object Object]"
  end.

(** [SameValueZero], the equality of [Set]: primitives by value; two objects
    or arrays met in different places are different references. *)
Definition same_value_zero (a b : JsVal) : bool :=
  match a, b with
  | VUndefined, VUndefined => true
  | VNull, VNull => true
  | VBool x, VBool y => Bool.eqb x y
  | VNum x, VNum y => Z.eqb x y
  | VStr x, VStr y => String.eqb x y
  | _, _ => false
  end.

(** A [Set] is its elements in insertion order, without repetition. *)
Definition Set_add {A : Type} (eqb : A -> A -> bool) (s : list A) (x : A) : list A :=
  if existsb (eqb x) s then s else s ++ [x].

(** ** Effects *)

Class Monad (M : Type -> Type) : Type := {
  ret : forall {A : Type}, A -> M A;
  bind : forall {A B : Type}, M A -> (A -> M B) -> M B
}.

Declare Scope monad_scope.
Notation "x <- c ;; k" := (bind c (fun x => k))
  (at level 61, c at next level, right associativity) : monad_scope.
Notation "' pat <- c ;; k" := (bind c (fun x => match x with pat => k end))
  (at level 61, pat pattern, c at next level, right associativity) : monad_scope.
Notation "c ;; k" := (bind c (fun _ => k))
  (at level 61, right associativity) : monad_scope.
Local Open Scope monad_scope.

#[global] Instance Monad_Completion : Monad Completion := {
  ret := fun A a => Normal a;
  bind := fun A B c k =>
    match c with
    | Normal a => k a
    | Throw e => Throw e
    end
}.

(** A reference to a request item object owned by the caller. *)
Definition loc : Type := nat.

(** The calls made to the consent service client. *)
Inductive Call : Type :=
| Call_requestApproval (items : JsVal)
| Call_getConsentMetadata (purposes : JsVal)
| Call_processConsentMetadata (itemNameSet : list string) (response : JsVal).

(** What a method of the class can observe and change: the log of collaborator
    calls made so far and the caller's request item objects, by reference. *)
Record World : Type := {
  calls : list Call;
  heap : loc -> JsObj
}.

(** State survives a [throw]. *)
Definition Eff (A : Type) : Type := World -> Completion A * World.

#[global] Instance Monad_Eff : Monad Eff := {
  ret := fun A a w => (Normal a, w);
  bind := fun A B c k w =>
    match c w with
    | (Normal a, w') => k a w'
    | (Throw e, w') => (Throw e, w')
    end
}.

Definition lift {A : Type} (c : Completion A) : Eff A :=
  fun w => (c, w).

Definition throw {A : Type} (e : Exn) : Eff A :=
  fun w => (Throw e, w).

(** [try { body } catch (error) { handler }]. *)
Definition try_catch {A : Type} (body : Eff A) (handler : Exn -> Eff A) : Eff A :=
  fun w =>
    match body w with
    | (Normal a, w') => (Normal a, w')
    | (Throw e, w') => handler e w'
    end.

(** [await] of a collaborator call that settles as [outcome]. *)
Definition await (c : Call) (outcome : Completion JsVal) : Eff JsVal :=
  fun w => (outcome, {| calls := calls w ++ [c]; heap := heap w |}).

Definition read (item : loc) : Eff JsObj :=
  fun w => (Normal (heap w item), w).

Definition write (item : loc) (o : JsObj) : Eff unit :=
  fun w => (Normal tt,
            {| calls := calls w;
               heap := fun l => if Nat.eqb l item then o else heap w l |}).

(** ** Collaborators *)

Module StringUtils.

(** Modelled from the spec: [StringUtils.has] ([lib/utils/stringUtils.js] is
    not among the sources).  The configuration "lacks a tenant endpoint field",
    the auth object "lacks a credential field": the test is that the object
    carries the property. *)
Definition has (obj : JsVal) (k : string) : bool :=
  match obj with
  | VObj props =>
      match obj_lookup props k with
      | Some _ => true
      | None => false
      end
  | _ => false
  end.

(** Modelled from the spec: [StringUtils.getOrDefault] (same missing file).
    The slot key is built from "attributeId(or empty)" and "accessTypeId(or
    empty)": a missing value gives the default, any other value is kept. *)
Definition getOrDefault (v def : JsVal) : JsVal :=
  if is_nullish v then def else v.

End StringUtils.

Module DPCMService.

(** The consent service client, by the three operations the class awaits.
    Each settles as a fulfilled ([Normal]) or rejected ([Throw]) promise. *)
Record t : Type := {
  requestApproval : JsVal -> Completion JsVal;
  getConsentMetadata : JsVal -> Completion JsVal;
  processConsentMetadata : list string -> JsVal -> Completion JsVal
}.

End DPCMService.

(** ** The class *)

Record Privacy : Type := {
  _config : JsVal;
  _auth : JsVal;
  _context : JsVal
}.

(** A default parameter value applies when the argument is [undefined]. *)
Definition default_param (arg def : JsVal) : JsVal :=
  match arg with
  | VUndefined => def
  | _ => arg
  end.

Definition constructor (config auth context : JsVal) : Eff Privacy :=
  let context := default_param context (VObj []) in
  if negb (StringUtils.has config "tenantUrl") then
    throw (ConfigurationError
             "Cannot find property 'tenantUrl' in configuration settings.")
  else if negb (StringUtils.has auth "accessToken") then
    throw (ConfigurationError "Cannot find property 'accessToken' in auth")
  else
    ret {| _config := config; _auth := auth; _context := context |}.

(** [a && b] in a condition, [b] evaluated only when [a] is truthy. *)
Definition and_then (a : JsVal) (b : Completion bool) : Completion bool :=
  if truthy a then b else Normal false.

(** One turn of the [for (const ia of assessment)] loop of [assess]: the new
    value of [status].  Reading a property has no effect, so [ia.result] is
    read once. *)
Definition assess_item (status : JsVal) (ia : JsVal) : Completion JsVal :=
  result <- get_prop ia (KName "result");;
  approved <- and_then result
                (first <- get_prop result (KIndex 0);;
                 a <- get_prop first (KName "approved");;
                 ret (truthy a));;
  if (approved : bool) then
    ret (if is_nullish status then VStr "approved" else status)
  else
    consent <- and_then result
                 (first <- get_prop result (KIndex 0);;
                  reason <- get_prop first (KName "reason");;
                  messageId <- get_prop reason (KName "messageId");;
                  ret (strict_eq_str messageId "CSIBT0033I"));;
    if (consent : bool) then ret (VStr "consent") else ret status.

Fixpoint assess_loop (status : JsVal) (assessment : list JsVal) : Completion JsVal :=
  match assessment with
  | [] => ret status
  | ia :: rest =>
      status' <- assess_item status ia;;
      assess_loop status' rest
  end.

(** [error.response]: native errors carry no such property. *)
Definition error_response (error : Exn) : Completion JsVal :=
  match error with
  | Thrown v => get_prop v (KName "response")
  | TypeError | ConfigurationError _ => Normal VUndefined
  end.

(** The [catch (error)] block, the same in both methods.  The [debug] calls
    only record diagnostics. *)
Definition catch_block (error : Exn) : Eff JsVal :=
  let jsonResp := [("status", VStr "error")] in
  response <- lift (error_response error);;
  data <- lift (get_prop response (KName "data"));;
  if truthy data then
    ret (VObj (obj_set jsonResp "detail" data))
  else
    ret (VObj jsonResp).

(** The key of one requested slot, a template literal. *)
Definition item_name (item : JsObj) : string :=
  (to_string (obj_get item "purposeId") ++ "/"
   ++ to_string (StringUtils.getOrDefault (obj_get item "attributeId") (VStr ""))
   ++ "."
   ++ to_string (StringUtils.getOrDefault (obj_get item "accessTypeId") (VStr "")))%string.

(** The [for (const item of items)] loop of [getConsentMetadata]; [purposes]
    and [itemNameSet] are the two sets it fills. *)
Fixpoint collect_items (items : list loc) (purposes : list JsVal)
    (itemNameSet : list string) : Eff (list JsVal * list string) :=
  match items with
  | [] => ret (purposes, itemNameSet)
  | item :: rest =>
      o <- read item;;
      let purposes := Set_add same_value_zero purposes (obj_get o "purposeId") in
      (if negb (truthy (obj_get o "accessTypeId"))
          || is_nullish (obj_get o "accessTypeId")
       then write item (obj_set o "accessTypeId" (VStr "default"))
       else ret tt);;
      o' <- read item;;
      let itemNameSet := Set_add String.eqb itemNameSet (item_name o') in
      collect_items rest purposes itemNameSet
  end.

Section Methods.

(** [new DPCMService(auth, tenantUrl, context)]: its source is not given. *)
Variable new_DPCMService : JsVal -> JsVal -> JsVal -> Completion DPCMService.t.

(** The first statement of both methods, outside their [try]. *)
Definition new_service (self : Privacy) : Eff DPCMService.t :=
  tenantUrl <- lift (get_prop (_config self) (KName "tenantUrl"));;
  lift (new_DPCMService (_auth self) tenantUrl (_context self)).

(** [async assess(items)].  The [debug] calls (and the [JSON.stringify] of
    their arguments, total on these values) only record diagnostics.  The
    [match] is the test [Array.isArray(assessment)]. *)
Definition assess (self : Privacy) (items : JsVal) : Eff JsVal :=
  service <- new_service self;;
  try_catch
    (assessment <- await (Call_requestApproval items)
                     (DPCMService.requestApproval service items);;
     match assessment with
     | VArr elems =>
         status <- lift (assess_loop VNull elems);;
         let status := if is_nullish status then VStr "denied" else status in
         ret (VObj [("status", status); ("assessment", assessment)])
     | _ =>
         ret (VObj
                [("status", VStr "error");
                 ("data",
                  VObj
                    [("messageId", VStr "INVALID_DATATYPE");
                     ("messageDescription",
                      VStr ("'assessment' is expected to be an array. Received "
                            ++ typeof assessment)%string)])])
     end)
    catch_block.

(** [async getConsentMetadata(items)], on the caller's array of request item
    objects, each held by reference. *)
Definition getConsentMetadata (self : Privacy) (items : list loc) : Eff JsVal :=
  service <- new_service self;;
  try_catch
    ('(purposes, itemNameSet) <- collect_items items [] [];;
     response <- await (Call_getConsentMetadata (VArr purposes))
                   (DPCMService.getConsentMetadata service (VArr purposes));;
     metadata <- await (Call_processConsentMetadata itemNameSet response)
                   (DPCMService.processConsentMetadata service itemNameSet response);;
     ret (VObj [("status", VStr "done"); ("metadata", metadata)]))
    catch_block.

End Methods.

(** ** Sample data and test doubles *)

(** A client whose three operations settle in a fixed way. *)
Definition stub_service (approval metadata processed : Completion JsVal)
  : DPCMService.t :=
  {| DPCMService.requestApproval := fun _ => approval;
     DPCMService.getConsentMetadata := fun _ => metadata;
     DPCMService.processConsentMetadata := fun _ _ => processed |}.

Definition stub_factory (service : DPCMService.t)
  : JsVal -> JsVal -> JsVal -> Completion DPCMService.t :=
  fun _ _ _ => Normal service.

Definition sample_privacy : Privacy :=
  {| _config := VObj [("tenantUrl", VStr "https://tenant.example")];
     _auth := VObj [("accessToken", VStr "token")];
     _context := VObj [] |}.

Definition empty_world : World :=
  {| calls := []; heap := fun _ => [] |}.

(** [{result: [{approved: true}]}] *)
Definition approved_item : JsVal :=
  VObj [("result", VArr [VObj [("approved", VBool true)]])].

(** [{result: [{approved: false, reason: {messageId: id}}]}] *)
Definition refused_item (id : string) : JsVal :=
  VObj [("result",
         VArr [VObj [("approved", VBool false);
                     ("reason", VObj [("messageId", VStr id)])]])].

Definition consent_item : JsVal := refused_item "CSIBT0033I".

Definition denied_item : JsVal := refused_item "CSIBT0034I".

(** [{result: []}] *)
Definition empty_result_item : JsVal := VObj [("result", VArr [])].

(** [{result: [{approved: false}]}] *)
Definition no_reason_item : JsVal :=
  VObj [("result", VArr [VObj [("approved", VBool false)]])].

(** [{purposeId: "p1"}], an item without result. *)
Definition no_result_item : JsVal := VObj [("purposeId", VStr "p1")].

(** [{result: [{approved: false, reason: {messageDescription: "refused"}}]}] *)
Definition no_messageId_item : JsVal :=
  VObj [("result",
         VArr [VObj [("approved", VBool false);
                     ("reason", VObj [("messageDescription", VStr "refused")])]])].

(** A failure without response, as a refused connection gives. *)
Definition network_failure : JsVal :=
  VObj [("message", VStr "connect ECONNREFUSED"); ("code", VStr "ECONNREFUSED")].

(** Three request items of the caller:
    [{purposeId: "p1"}], [{purposeId: "p1", accessTypeId: "default"}] and
    [{purposeId: "p2", attributeId: "email", accessTypeId: null}]. *)
Definition sample_world : World :=
  {| calls := [];
     heap := fun l =>
       match l with
       | 0 => [("purposeId", VStr "p1")]
       | 1 => [("purposeId", VStr "p1"); ("accessTypeId", VStr "default")]
       | 2 => [("purposeId", VStr "p2"); ("attributeId", VStr "email");
               ("accessTypeId", VNull)]
       | _ => []
       end |}.


(** ** The vocabulary of the specification *)

(** The first entry of an item's result, when the item has a result. *)
Definition first_entry (ia : JsVal) : option JsVal :=
  match get_prop ia (KName "result") with
  | Normal result =>
      if truthy result then
        match get_prop result (KIndex 0) with
        | Normal e => Some e
        | Throw _ => None
        end
      else None
  | Throw _ => None
  end.

Definition entry_approved (e : JsVal) : bool :=
  match get_prop e (KName "approved") with
  | Normal a => truthy a
  | Throw _ => false
  end.

(** The messageId of the entry's reason. *)
Definition entry_messageId (e : JsVal) : option JsVal :=
  match get_prop e (KName "reason") with
  | Normal reason =>
      match get_prop reason (KName "messageId") with
      | Normal m => Some m
      | Throw _ => None
      end
  | Throw _ => None
  end.

(** The item's first result entry is approved. *)
Definition is_approved (ia : JsVal) : bool :=
  match first_entry ia with
  | Some e => entry_approved e
  | None => false
  end.

(** The item's first result entry is not approved and its reason's messageId
    is the consent-required code. *)
Definition requires_consent (ia : JsVal) : bool :=
  match first_entry ia with
  | Some e =>
      negb (entry_approved e)
      && match entry_messageId e with
         | Some m => strict_eq_str m "CSIBT0033I"
         | None => false
         end
  | None => false
  end.

(** The item has the shape the scan can read: it is not [null] or [undefined];
    when it has a result, the result has a first entry; when that entry is not
    approved, it has a reason. *)
Definition scannable (ia : JsVal) : bool :=
  negb (is_nullish ia)
  && match first_entry ia with
     | Some e =>
         negb (is_nullish e)
         && (entry_approved e
             || match get_prop e (KName "reason") with
                | Normal reason => negb (is_nullish reason)
                | Throw _ => false
                end)
     | None => true
     end.

(** The status the scan ends with, started from [status]. *)
Definition scan_status (status : JsVal) (assessment : list JsVal) : JsVal :=
  if existsb requires_consent assessment then VStr "consent"
  else if existsb is_approved assessment then
         (if is_nullish status then VStr "approved" else status)
  else status.

(** The item has no result. *)
Definition result_absent (ia : JsVal) : bool :=
  match get_prop ia (KName "result") with
  | Normal VUndefined => true
  | _ => false
  end.

(** The item's first result entry is not approved and has a reason without
    messageId. *)
Definition reason_lacks_messageId (ia : JsVal) : bool :=
  match first_entry ia with
  | Some e =>
      match get_prop e (KName "approved"), get_prop e (KName "reason") with
      | Normal a, Normal reason =>
          negb (truthy a)
          && match get_prop reason (KName "messageId") with
             | Normal VUndefined => true
             | _ => false
             end
      | _, _ => false
      end
  | None => false
  end.

(** The [status] property of the value a promise is fulfilled with. *)
Definition status_of (p : Completion JsVal) : Completion JsVal :=
  r <- p;;
  get_prop r (KName "status").

(** The promise is fulfilled with an object whose status is [s]. *)
Definition returns_status (p : Completion JsVal) (s : string) : Prop :=
  status_of p = Normal (VStr s).

(** The world after one more collaborator call. *)
Definition logged (c : Call) (w : World) : World :=
  {| calls := calls w ++ [c]; heap := heap w |}.

(** What the loop of [getConsentMetadata] leaves in an item's cell. *)
Definition with_default_accessType (o : JsObj) : JsObj :=
  if negb (truthy (obj_get o "accessTypeId")) || is_nullish (obj_get o "accessTypeId")
  then obj_set o "accessTypeId" (VStr "default")
  else o.

(** A missing part of the slot key contributes the empty string. *)
Definition or_empty (v : JsVal) : string :=
  if is_nullish v then "" else to_string v.

(** The RequestedSlotKey in the specification's words:
    purposeId + "/" + attributeId (or empty) + "." + accessTypeId (or empty). *)
Definition RequestedSlotKey (item : JsObj) : string :=
  (to_string (obj_get item "purposeId") ++ "/"
   ++ or_empty (obj_get item "attributeId") ++ "."
   ++ or_empty (obj_get item "accessTypeId"))%string.

(** The set of slot keys the loop of [getConsentMetadata] builds over [items],
    added to [acc], read off the heap the call starts from. *)
Definition requested_keys (h : loc -> JsObj) (items : list loc)
    (acc : list string) : list string :=
  fold_left
    (fun acc item =>
       Set_add String.eqb acc (item_name (with_default_accessType (h item))))
    items acc.

(** The set of purposes the same loop builds. *)
Definition requested_purposes (h : loc -> JsObj) (items : list loc)
    (acc : list JsVal) : list JsVal :=
  fold_left
    (fun acc item => Set_add same_value_zero acc (obj_get (h item) "purposeId"))
    items acc.

(** The heap the loop leaves. *)
Definition defaulted (h : loc -> JsObj) (items : list loc) : loc -> JsObj :=
  fun l => if existsb (Nat.eqb l) items then with_default_accessType (h l) else h l.

(** A client that resolves [requestApproval] with the very list it is given. *)
Definition echo_service : DPCMService.t :=
  {| DPCMService.requestApproval := fun items => Normal items;
     DPCMService.getConsentMetadata := fun purposes => Normal purposes;
     DPCMService.processConsentMetadata := fun _ response => Normal response |}.

(** A value compared by value in a [Set]: anything but an object or array. *)
Definition is_primitive (v : JsVal) : bool :=
  match v with
  | VArr _ | VObj _ => false
  | _ => true
  end.

(** The character occurs in the string. *)
Fixpoint has_char (c : ascii) (s : string) : bool :=
  match s with
  | EmptyString => false
  | String c' rest => Ascii.eqb c' c || has_char c rest
  end.

(** A request item whose access type is the empty string:
    [{purposeId: "p1", accessTypeId: ""}]. *)
Definition blank_access_world : World :=
  {| calls := [];
     heap := fun _ => [("purposeId", VStr "p1"); ("accessTypeId", VStr "")] |}.

(** A failure with a response that has no data. *)
Definition empty_response_failure : JsVal :=
  VObj [("response", VObj [("status", VNum 500)])].

(** A client constructor that throws. *)
Definition failing_factory (e : Exn)
  : JsVal -> JsVal -> JsVal -> Completion DPCMService.t :=
  fun _ _ _ => Throw e.

(** The four values of the overall status. *)
Definition is_status (s : string) : Prop :=
  s = "approved" \/ s = "consent" \/ s = "denied" \/ s = "error".

(** ** The loop of [assess], one item at a time *)

Ltac break_match :=
  repeat match goal with
         | H : context [match ?x with _ => _ end] |- _ => destruct x eqn:?; simpl in H; try discriminate
         | |- context [match ?x with _ => _ end] => destruct x eqn:?; simpl; try discriminate
         end.

Lemma truthy_not_nullish (v : JsVal) : truthy v = true -> is_nullish v = false.
Proof. destruct v; simpl; congruence. Qed.

Lemma get_prop_throws (v : JsVal) (k : PropKey) (e : Exn) :
  get_prop v k = Throw e -> e = TypeError /\ is_nullish v = true.
Proof.
  destruct v; simpl; try discriminate; try (intros [= <-]; auto);
    destruct k; simpl; try discriminate;
    destruct (String.eqb name "length"); discriminate.
Qed.

Lemma assess_item_approved (status ia : JsVal) :
  is_approved ia = true ->
  assess_item status ia
  = Normal (if is_nullish status then VStr "approved" else status).
Proof.
  unfold is_approved, first_entry, entry_approved, assess_item, and_then.
  simpl. intros H. break_match; congruence.
Qed.

Lemma assess_item_consent (status ia : JsVal) :
  requires_consent ia = true ->
  assess_item status ia = Normal (VStr "consent").
Proof.
  unfold requires_consent, first_entry, entry_approved, entry_messageId,
    assess_item, and_then.
  simpl. intros H.
  destruct (get_prop ia (KName "result")) as [result|e]; simpl in *; [|discriminate].
  destruct (truthy result); simpl in *; [|discriminate].
  destruct (get_prop result (KIndex 0)) as [first|e]; simpl in *; [|discriminate].
  destruct (get_prop first (KName "approved")) as [a|e] eqn:Happ; simpl in *.
  - destruct (truthy a); simpl in *; [discriminate|].
    destruct (get_prop first (KName "reason")) as [reason|e]; simpl in *;
      [|discriminate].
    destruct (get_prop reason (KName "messageId")) as [m|e]; simpl in *;
      [|discriminate].
    rewrite H. reflexivity.
  - apply get_prop_throws in Happ. destruct Happ as [_ Hn].
    destruct first; simpl in *; discriminate.
Qed.

Lemma assess_item_neutral (status ia : JsVal) :
  scannable ia = true ->
  is_approved ia = false ->
  requires_consent ia = false ->
  assess_item status ia = Normal status.
Proof.
  unfold scannable, is_approved, requires_consent, first_entry, entry_approved,
    entry_messageId, assess_item, and_then.
  simpl. intros Hs Ha Hc.
  destruct (get_prop ia (KName "result")) as [result|e] eqn:Hres; simpl.
  - destruct (truthy result) eqn:Ht; simpl; [|reflexivity].
    destruct (get_prop result (KIndex 0)) as [first|e] eqn:Hfirst; simpl.
    + destruct (get_prop first (KName "approved")) as [a|e] eqn:Happ; simpl.
      * rewrite Ha in *. simpl in *.
        destruct (get_prop first (KName "reason")) as [reason|e] eqn:Hrea; simpl.
        -- destruct (get_prop reason (KName "messageId")) as [m|e] eqn:Hm; simpl.
           ++ rewrite Hc. reflexivity.
           ++ apply get_prop_throws in Hm. destruct Hm as [_ Hm].
              rewrite Hm in Hs. rewrite !andb_false_r in Hs. discriminate.
        -- rewrite !andb_false_r in Hs. discriminate.
      * apply get_prop_throws in Happ. destruct Happ as [_ Happ].
        rewrite Happ in Hs. simpl in Hs. rewrite andb_false_r in Hs. discriminate.
    + apply get_prop_throws in Hfirst. destruct Hfirst as [_ Hfirst].
      apply truthy_not_nullish in Ht. congruence.
  - apply get_prop_throws in Hres. destruct Hres as [_ Hres].
    rewrite Hres in Hs. discriminate.
Qed.

Lemma assess_item_faulty (status ia : JsVal) :
  scannable ia = false ->
  assess_item status ia = Throw TypeError.
Proof.
  unfold scannable, first_entry, entry_approved, assess_item, and_then.
  simpl. intros Hs.
  destruct (get_prop ia (KName "result")) as [result|e] eqn:Hres; simpl.
  - assert (Hia : is_nullish ia = false).
    { destruct ia; simpl in *; try reflexivity; discriminate. }
    rewrite Hia in Hs. simpl in Hs.
    destruct (truthy result) eqn:Ht; simpl; [|discriminate].
    destruct (get_prop result (KIndex 0)) as [first|e] eqn:Hfirst; simpl.
    + destruct (get_prop first (KName "approved")) as [a|e] eqn:Happ; simpl.
      * destruct (is_nullish first) eqn:Hn; simpl in Hs.
        { destruct first; simpl in *; discriminate. }
        destruct (truthy a); simpl in *; [discriminate|].
        destruct (get_prop first (KName "reason")) as [reason|e] eqn:Hrea; simpl.
        -- destruct reason; simpl in *; try discriminate; reflexivity.
        -- apply get_prop_throws in Hrea. destruct Hrea as [-> _]. reflexivity.
      * apply get_prop_throws in Happ. destruct Happ as [-> _]. reflexivity.
    + apply get_prop_throws in Hfirst. destruct Hfirst as [-> _]. reflexivity.
  - apply get_prop_throws in Hres. destruct Hres as [-> _]. reflexivity.
Qed.

Lemma is_approved_scannable (ia : JsVal) :
  is_approved ia = true -> scannable ia = true.
Proof.
  intros H. destruct (scannable ia) eqn:Hs; [reflexivity|].
  pose proof (assess_item_approved VNull ia H) as E.
  rewrite (assess_item_faulty VNull ia Hs) in E. discriminate.
Qed.

Lemma requires_consent_scannable (ia : JsVal) :
  requires_consent ia = true -> scannable ia = true.
Proof.
  intros H. destruct (scannable ia) eqn:Hs; [reflexivity|].
  pose proof (assess_item_consent VNull ia H) as E.
  rewrite (assess_item_faulty VNull ia Hs) in E. discriminate.
Qed.

Lemma approved_excludes_consent (ia : JsVal) :
  is_approved ia = true -> requires_consent ia = false.
Proof.
  unfold is_approved, requires_consent.
  destruct (first_entry ia); [|reflexivity].
  intros ->. reflexivity.
Qed.

(** The four ways one turn of the loop can go. *)
Lemma assess_item_cases (status ia : JsVal) :
  assess_item status ia
  = if negb (scannable ia) then Throw TypeError
    else if is_approved ia then
           Normal (if is_nullish status then VStr "approved" else status)
    else if requires_consent ia then Normal (VStr "consent")
    else Normal status.
Proof.
  destruct (scannable ia) eqn:Hs; simpl.
  - destruct (is_approved ia) eqn:Ha.
    + now apply assess_item_approved.
    + destruct (requires_consent ia) eqn:Hc.
      * now apply assess_item_consent.
      * now apply assess_item_neutral.
  - now apply assess_item_faulty.
Qed.

(** ** The whole scan *)

Lemma assess_loop_app (status : JsVal) (l1 l2 : list JsVal) :
  assess_loop status (l1 ++ l2)
  = (status' <- assess_loop status l1;; assess_loop status' l2).
Proof.
  revert status. induction l1 as [|ia l1 IH]; intros status; simpl.
  - reflexivity.
  - destruct (assess_item status ia) as [status'|e]; simpl; [apply IH|reflexivity].
Qed.

Lemma assess_loop_throws (status : JsVal) (l : list JsVal) (e : Exn) :
  assess_loop status l = Throw e -> e = TypeError.
Proof.
  revert status. induction l as [|ia l IH]; intros status; simpl.
  - discriminate.
  - rewrite assess_item_cases.
    destruct (scannable ia); simpl; [|congruence].
    destruct (is_approved ia); [apply IH|].
    destruct (requires_consent ia); apply IH.
Qed.

Lemma assess_loop_faulty (status : JsVal) (l : list JsVal) :
  forallb scannable l = false ->
  assess_loop status l = Throw TypeError.
Proof.
  revert status. induction l as [|ia l IH]; intros status; simpl.
  - discriminate.
  - rewrite assess_item_cases.
    destruct (scannable ia); simpl; [|reflexivity].
    intros H.
    destruct (is_approved ia); [now apply IH|].
    destruct (requires_consent ia); now apply IH.
Qed.

Lemma assess_loop_scan (status : JsVal) (l : list JsVal) :
  forallb scannable l = true ->
  assess_loop status l = Normal (scan_status status l).
Proof.
  unfold scan_status.
  revert status. induction l as [|ia l IH]; intros status; simpl.
  - reflexivity.
  - rewrite assess_item_cases.
    destruct (scannable ia); simpl; [|discriminate].
    intros H.
    destruct (is_approved ia) eqn:Ha; simpl.
    + rewrite (approved_excludes_consent ia Ha). simpl.
      rewrite (IH _ H).
      destruct (existsb requires_consent l); [reflexivity|].
      destruct (is_nullish status) eqn:Hn; simpl; [|rewrite Hn];
        destruct (existsb is_approved l); reflexivity.
    + destruct (requires_consent ia) eqn:Hc; simpl.
      * rewrite (IH _ H). simpl.
        destruct (existsb requires_consent l); [reflexivity|].
        destruct (existsb is_approved l); reflexivity.
      * apply (IH _ H).
Qed.

(** An item on which a turn leaves every status as it was can be dropped. *)
Lemma assess_loop_drop (ia : JsVal) (pre post : list JsVal) :
  (forall status, assess_item status ia = Normal status) ->
  forall status,
    assess_loop status (pre ++ ia :: post) = assess_loop status (pre ++ post).
Proof.
  intros Hskip status. rewrite !assess_loop_app.
  destruct (assess_loop status pre) as [status'|e]; simpl; [|reflexivity].
  rewrite Hskip. reflexivity.
Qed.

Lemma forallb_false_In {A : Type} (f : A -> bool) (l : list A) (x : A) :
  In x l -> f x = false -> forallb f l = false.
Proof.
  intros Hin Hx. destruct (forallb f l) eqn:E; [|reflexivity].
  rewrite forallb_forall in E. rewrite (E x Hin) in Hx. discriminate.
Qed.

(** ** The two methods, step by step *)

(** A failure that has a [response] is turned into a value. *)
Lemma catch_block_response (v response data : JsVal) (w : World) :
  get_prop v (KName "response") = Normal response ->
  get_prop response (KName "data") = Normal data ->
  catch_block (Thrown v) w
  = (Normal (if truthy data
             then VObj [("status", VStr "error"); ("detail", data)]
             else VObj [("status", VStr "error")]), w).
Proof.
  intros Hr Hd. unfold catch_block, lift. simpl. rewrite Hr. simpl. rewrite Hd.
  destruct (truthy data); reflexivity.
Qed.

(** A failure without [response] makes the [catch] block itself throw. *)
Lemma catch_block_no_response (v response : JsVal) (w : World) :
  get_prop v (KName "response") = Normal response ->
  is_nullish response = true ->
  catch_block (Thrown v) w = (Throw TypeError, w).
Proof.
  intros Hr Hn. unfold catch_block, lift. simpl. rewrite Hr. simpl.
  destruct response; simpl in *; try discriminate; reflexivity.
Qed.

Section Verification.

Variable new_DPCMService : JsVal -> JsVal -> JsVal -> Completion DPCMService.t.

Lemma assess_settled (self : Privacy) (service : DPCMService.t)
    (items : JsVal) (w : World) :
  new_service new_DPCMService self w = (Normal service, w) ->
  assess new_DPCMService self items w
  = match DPCMService.requestApproval service items with
    | Normal (VArr elems) =>
        match assess_loop VNull elems with
        | Normal status =>
            (Normal
               (VObj [("status", if is_nullish status then VStr "denied" else status);
                      ("assessment", VArr elems)]),
             logged (Call_requestApproval items) w)
        | Throw _ => (Throw TypeError, logged (Call_requestApproval items) w)
        end
    | Normal other =>
        (Normal
           (VObj
              [("status", VStr "error");
               ("data",
                VObj
                  [("messageId", VStr "INVALID_DATATYPE");
                   ("messageDescription",
                    VStr ("'assessment' is expected to be an array. Received "
                          ++ typeof other)%string)])]),
         logged (Call_requestApproval items) w)
    | Throw error => catch_block error (logged (Call_requestApproval items) w)
    end.
Proof.
  intros Hsvc. unfold assess. simpl. rewrite Hsvc.
  unfold try_catch, await, lift, logged. simpl.
  destruct (DPCMService.requestApproval service items) as [v|error]; simpl;
    [|reflexivity].
  destruct v; simpl; try reflexivity.
  destruct (assess_loop VNull elems) as [status|e] eqn:Hloop; simpl.
  - reflexivity.
  - apply assess_loop_throws in Hloop. subst e. reflexivity.
Qed.

(** What [assess] returns on an array, in the vocabulary of the
    specification. *)
Lemma assess_array (self : Privacy) (service : DPCMService.t)
    (items : JsVal) (elems : list JsVal) (w : World) :
  new_service new_DPCMService self w = (Normal service, w) ->
  DPCMService.requestApproval service items = Normal (VArr elems) ->
  assess new_DPCMService self items w
  = (if forallb scannable elems then
       Normal
         (VObj [("status",
                 VStr (if existsb requires_consent elems then "consent"
                       else if existsb is_approved elems then "approved"
                       else "denied"));
                ("assessment", VArr elems)])
     else Throw TypeError,
     logged (Call_requestApproval items) w).
Proof.
  intros Hsvc Hreq. rewrite (assess_settled self service items w Hsvc), Hreq.
  destruct (forallb scannable elems) eqn:Hs.
  - rewrite (assess_loop_scan VNull elems Hs). unfold scan_status.
    destruct (existsb requires_consent elems); [reflexivity|].
    destruct (existsb is_approved elems); reflexivity.
  - rewrite (assess_loop_faulty VNull elems Hs). reflexivity.
Qed.

Lemma returns_status_Normal (status : string) (rest : JsObj) (s : string) :
  returns_status (Normal (VObj (("status", VStr status) :: rest))) s
  <-> status = s.
Proof.
  unfold returns_status, status_of. simpl. unfold obj_get. simpl.
  split; [intros [= ->]|intros ->]; reflexivity.
Qed.

Lemma returns_status_Throw (e : Exn) (s : string) :
  ~ returns_status (Throw e) s.
Proof. unfold returns_status, status_of. simpl. discriminate. Qed.

(** An item without result, or refused without a messageId, is one the scan
    reads through. *)
Lemma silent_item_neutral (ia : JsVal) :
  result_absent ia || reason_lacks_messageId ia = true ->
  scannable ia = true /\ is_approved ia = false /\ requires_consent ia = false.
Proof.
  unfold result_absent, reason_lacks_messageId, scannable, is_approved,
    requires_consent, first_entry, entry_approved, entry_messageId.
  intros H.
  destruct (get_prop ia (KName "result")) as [result|e] eqn:Hres;
    [|simpl in H; discriminate].
  assert (Hia : is_nullish ia = false).
  { destruct ia; simpl in *; try reflexivity; discriminate. }
  rewrite Hia. simpl.
  destruct (truthy result) eqn:Ht; [|auto].
  assert (Hr : match result with VUndefined => true | _ => false end = false).
  { destruct result; simpl in *; try reflexivity; discriminate. }
  rewrite Hr in H. simpl in H.
  destruct (get_prop result (KIndex 0)) as [first|e] eqn:Hfirst; [|discriminate].
  destruct (get_prop first (KName "approved")) as [a|e] eqn:Happ; [|discriminate].
  destruct (get_prop first (KName "reason")) as [reason|e] eqn:Hrea; [|discriminate].
  apply andb_true_iff in H. destruct H as [Ha Hm].
  apply negb_true_iff in Ha. rewrite Ha. simpl.
  destruct (get_prop reason (KName "messageId")) as [m|e] eqn:Hmid; [|discriminate].
  destruct m; try discriminate. simpl.
  assert (Hf : is_nullish first = false).
  { destruct first; simpl in *; try reflexivity; discriminate. }
  assert (Hn : is_nullish reason = false).
  { destruct reason; simpl in *; try reflexivity; discriminate. }
  rewrite Hf, Hn. auto.
Qed.

(** Only the first entry of a result array is read. *)
Lemma assess_item_first_entry_only (status x y e : JsVal) (rest rest' : list JsVal) :
  get_prop x (KName "result") = Normal (VArr (e :: rest)) ->
  get_prop y (KName "result") = Normal (VArr (e :: rest')) ->
  assess_item status x = assess_item status y.
Proof.
  intros Hx Hy. unfold assess_item, and_then. simpl. rewrite Hx, Hy. reflexivity.
Qed.

Lemma empty_result_not_scannable (ia : JsVal) :
  get_prop ia (KName "result") = Normal (VArr []) -> scannable ia = false.
Proof.
  intros H. unfold scannable, first_entry. rewrite H. simpl.
  apply andb_false_r.
Qed.

(** C1 (as amended).  When the array [requestApproval] resolves with holds only
    items the scan can read, and at least one of them has a first result entry
    that is not approved with reason messageId CSIBT0033I, [assess] resolves
    with overall status "consent" and the untouched array, however many other
    items are approved and wherever they stand. *)
Theorem consent_takes_precedence (self : Privacy) (service : DPCMService.t)
    (items : JsVal) (elems : list JsVal) (w : World) :
  new_service new_DPCMService self w = (Normal service, w) ->
  DPCMService.requestApproval service items = Normal (VArr elems) ->
  forallb scannable elems = true ->
  (exists ia, In ia elems /\ requires_consent ia = true) ->
  fst (assess new_DPCMService self items w)
  = Normal (VObj [("status", VStr "consent"); ("assessment", VArr elems)])
  /\ returns_status (fst (assess new_DPCMService self items w)) "consent"
  /\ (forall approved, is_approved approved = true ->
                       assess_item (VStr "consent") approved = Normal (VStr "consent")).
Proof.
  intros Hsvc Hreq Hs [ia [Hin Hc]].
  rewrite (assess_array self service items elems w Hsvc Hreq), Hs.
  assert (E : existsb requires_consent elems = true)
    by (apply existsb_exists; eauto).
  rewrite E. simpl. split; [reflexivity|].
  split; [now apply returns_status_Normal|].
  intros approved Ha. now rewrite (assess_item_approved _ _ Ha).
Qed.

(** C4 (as amended).  When the array holds only items the scan can read, none
    with an approved first result entry and none requiring consent, [assess]
    resolves with overall status "denied"; so it does on the empty array. *)
Theorem denied_without_approval_or_consent (self : Privacy)
    (service : DPCMService.t) (w : World) :
  new_service new_DPCMService self w = (Normal service, w) ->
  (forall items elems,
      DPCMService.requestApproval service items = Normal (VArr elems) ->
      forallb scannable elems = true ->
      existsb is_approved elems = false ->
      existsb requires_consent elems = false ->
      fst (assess new_DPCMService self items w)
      = Normal (VObj [("status", VStr "denied"); ("assessment", VArr elems)]))
  /\ (forall items,
        DPCMService.requestApproval service items = Normal (VArr []) ->
        fst (assess new_DPCMService self items w)
        = Normal (VObj [("status", VStr "denied"); ("assessment", VArr [])])).
Proof.
  intros Hsvc. split.
  - intros items elems Hreq Hs Ha Hc.
    rewrite (assess_array self service items elems w Hsvc Hreq), Hs, Ha, Hc.
    reflexivity.
  - intros items Hreq.
    rewrite (assess_array self service items [] w Hsvc Hreq). reflexivity.
Qed.

(** C5.  When [requestApproval] resolves with a value that is not an array,
    [assess] resolves (it does not throw) with status "error" and a data field
    whose messageId is "INVALID_DATATYPE" and whose messageDescription ends
    with the [typeof] of the value received; the value is not scanned, and the
    result carries no assessment. *)
Theorem non_array_response_is_error_value (self : Privacy)
    (service : DPCMService.t) (items received : JsVal) (w : World) :
  new_service new_DPCMService self w = (Normal service, w) ->
  DPCMService.requestApproval service items = Normal received ->
  Array_isArray received = false ->
  assess new_DPCMService self items w
  = (Normal
       (VObj
          [("status", VStr "error");
           ("data",
            VObj
              [("messageId", VStr "INVALID_DATATYPE");
               ("messageDescription",
                VStr ("'assessment' is expected to be an array. Received "
                      ++ typeof received)%string)])]),
     logged (Call_requestApproval items) w).
Proof.
  intros Hsvc Hreq Harr.
  rewrite (assess_settled self service items w Hsvc), Hreq.
  destruct received; simpl in Harr; try discriminate; reflexivity.
Qed.

(** C2.  An item whose result is absent, or whose first result entry is not
    approved and has a reason without messageId, is passed over: its turn of
    the loop completes without throwing and leaves the status as it was, the
    scan of the whole array gives what it gives without the item, and so does
    the overall status [assess] reports.  Of a result array the scan reads
    index 0 alone: two items whose results agree there are told apart by no
    turn of the loop. *)
Theorem silent_items_are_skipped (self : Privacy) (service : DPCMService.t)
    (items items' : JsVal) (pre post : list JsVal) (ia : JsVal) (w : World) :
  new_service new_DPCMService self w = (Normal service, w) ->
  DPCMService.requestApproval service items = Normal (VArr (pre ++ ia :: post)) ->
  DPCMService.requestApproval service items' = Normal (VArr (pre ++ post)) ->
  result_absent ia || reason_lacks_messageId ia = true ->
  (forall status, assess_item status ia = Normal status)
  /\ (forall status,
        assess_loop status (pre ++ ia :: post) = assess_loop status (pre ++ post))
  /\ status_of (fst (assess new_DPCMService self items w))
     = status_of (fst (assess new_DPCMService self items' w))
  /\ (forall status x y e rest rest',
        get_prop x (KName "result") = Normal (VArr (e :: rest)) ->
        get_prop y (KName "result") = Normal (VArr (e :: rest')) ->
        assess_item status x = assess_item status y).
Proof.
  intros Hsvc Hreq Hreq' Hsilent.
  destruct (silent_item_neutral ia Hsilent) as [Hs [Ha Hc]].
  assert (Hskip : forall status, assess_item status ia = Normal status)
    by (intros status; now apply assess_item_neutral).
  split; [exact Hskip|].
  split; [now apply assess_loop_drop|].
  split.
  - rewrite (assess_settled self service items w Hsvc), Hreq.
    rewrite (assess_settled self service items' w Hsvc), Hreq'.
    rewrite (assess_loop_drop ia pre post Hskip VNull).
    destruct (assess_loop VNull (pre ++ post)); reflexivity.
  - intros status x y e rest rest'. apply assess_item_first_entry_only.
Qed.

(** C9.  A refused item that does not ask for consent changes nothing: its turn
    of the loop keeps the status.  So an array of readable items with an
    approved one and no consent-required one gets overall status "approved",
    whatever plainly denied items stand beside it; and "denied" is reported
    only when no item is approved and none requires consent. *)
Theorem approved_survives_denied_items (self : Privacy) (service : DPCMService.t)
    (items : JsVal) (elems : list JsVal) (w : World) :
  new_service new_DPCMService self w = (Normal service, w) ->
  DPCMService.requestApproval service items = Normal (VArr elems) ->
  (forallb scannable elems = true ->
   existsb is_approved elems = true ->
   existsb requires_consent elems = false ->
   fst (assess new_DPCMService self items w)
   = Normal (VObj [("status", VStr "approved"); ("assessment", VArr elems)]))
  /\ (forall status ia,
        scannable ia = true ->
        is_approved ia = false ->
        requires_consent ia = false ->
        assess_item status ia = Normal status)
  /\ (returns_status (fst (assess new_DPCMService self items w)) "denied" ->
      existsb is_approved elems = false
      /\ existsb requires_consent elems = false).
Proof.
  intros Hsvc Hreq.
  rewrite (assess_array self service items elems w Hsvc Hreq).
  split; [|split].
  - intros Hs Ha Hc. rewrite Hs, Ha, Hc. reflexivity.
  - intros status ia. apply assess_item_neutral.
  - destruct (forallb scannable elems); simpl.
    + intros H. apply returns_status_Normal in H.
      destruct (existsb requires_consent elems); [discriminate|].
      destruct (existsb is_approved elems); [discriminate|].
      auto.
    + intros H. now apply returns_status_Throw in H.
Qed.

(** C10.  When the array holds an item whose result is the empty array, the
    turn of the loop on that item throws a TypeError (the first entry is
    [undefined]); the [catch] block reads [error.response.data] on an error
    that has no [response], and the promise [assess] returns is rejected with
    a TypeError: it is not fulfilled with a status "error" value. *)
Theorem empty_result_rejects (self : Privacy) (service : DPCMService.t)
    (items : JsVal) (elems : list JsVal) (ia : JsVal) (w : World) :
  new_service new_DPCMService self w = (Normal service, w) ->
  DPCMService.requestApproval service items = Normal (VArr elems) ->
  In ia elems ->
  get_prop ia (KName "result") = Normal (VArr []) ->
  (forall status, assess_item status ia = Throw TypeError)
  /\ error_response TypeError = Normal VUndefined
  /\ fst (catch_block TypeError (logged (Call_requestApproval items) w))
     = Throw TypeError
  /\ assess new_DPCMService self items w
     = (Throw TypeError, logged (Call_requestApproval items) w).
Proof.
  intros Hsvc Hreq Hin Hres.
  pose proof (empty_result_not_scannable ia Hres) as Hs.
  split; [intros status; now apply assess_item_faulty|].
  split; [reflexivity|].
  split; [reflexivity|].
  rewrite (assess_array self service items elems w Hsvc Hreq).
  rewrite (forallb_false_In scannable elems ia Hin Hs). reflexivity.
Qed.

End Verification.

(** ** Objects and sets *)

Lemma obj_lookup_set_same (o : JsObj) (k : string) (v : JsVal) :
  obj_lookup (obj_set o k v) k = Some v.
Proof.
  induction o as [|[k' v'] o IH]; simpl.
  - now rewrite String.eqb_refl.
  - destruct (String.eqb k' k) eqn:E; simpl; rewrite E; [reflexivity|exact IH].
Qed.

Lemma obj_lookup_set_other (o : JsObj) (k k' : string) (v : JsVal) :
  k' <> k -> obj_lookup (obj_set o k v) k' = obj_lookup o k'.
Proof.
  intros Hne. induction o as [|[k0 v0] o IH]; simpl.
  - destruct (String.eqb k k') eqn:E; [|reflexivity].
    apply String.eqb_eq in E. congruence.
  - destruct (String.eqb k0 k) eqn:E; simpl.
    + apply String.eqb_eq in E. subst k0.
      destruct (String.eqb k k') eqn:E'; [|reflexivity].
      apply String.eqb_eq in E'. congruence.
    + rewrite IH. reflexivity.
Qed.

Lemma obj_get_set_same (o : JsObj) (k : string) (v : JsVal) :
  obj_get (obj_set o k v) k = v.
Proof. unfold obj_get. now rewrite obj_lookup_set_same. Qed.

Lemma obj_get_set_other (o : JsObj) (k k' : string) (v : JsVal) :
  k' <> k -> obj_get (obj_set o k v) k' = obj_get o k'.
Proof. intros H. unfold obj_get. now rewrite obj_lookup_set_other. Qed.

Lemma with_default_accessType_other (o : JsObj) (k : string) :
  k <> "accessTypeId" ->
  obj_get (with_default_accessType o) k = obj_get o k.
Proof.
  intros H. unfold with_default_accessType.
  destruct (negb (truthy (obj_get o "accessTypeId"))
            || is_nullish (obj_get o "accessTypeId")); [|reflexivity].
  now apply obj_get_set_other.
Qed.

Lemma with_default_accessType_set (o : JsObj) :
  truthy (obj_get o "accessTypeId") = false ->
  with_default_accessType o = obj_set o "accessTypeId" (VStr "default").
Proof. intros H. unfold with_default_accessType. now rewrite H. Qed.

Lemma with_default_accessType_kept (o : JsObj) :
  truthy (obj_get o "accessTypeId") = true ->
  with_default_accessType o = o.
Proof.
  intros H. unfold with_default_accessType.
  now rewrite H, (truthy_not_nullish _ H).
Qed.

Lemma with_default_accessType_truthy (o : JsObj) :
  truthy (obj_get (with_default_accessType o) "accessTypeId") = true.
Proof.
  destruct (truthy (obj_get o "accessTypeId")) eqn:E.
  - now rewrite with_default_accessType_kept.
  - rewrite with_default_accessType_set by exact E.
    now rewrite obj_get_set_same.
Qed.

Lemma with_default_accessType_idem (o : JsObj) :
  with_default_accessType (with_default_accessType o) = with_default_accessType o.
Proof.
  apply with_default_accessType_kept, with_default_accessType_truthy.
Qed.

Lemma nullish_not_truthy (v : JsVal) : is_nullish v = true -> truthy v = false.
Proof. destruct v; simpl; congruence. Qed.

Lemma In_Set_add_string (s : list string) (x y : string) :
  In x (Set_add String.eqb s y) <-> In x s \/ x = y.
Proof.
  unfold Set_add. destruct (existsb (String.eqb y) s) eqn:E.
  - split; [auto|]. intros [H| ->]; [exact H|].
    apply existsb_exists in E. destruct E as [z [Hz Heq]].
    apply String.eqb_eq in Heq. now subst z.
  - rewrite in_app_iff. simpl. split.
    + intros [H|[H|[]]]; auto.
    + intros [H|H]; auto.
Qed.

Lemma NoDup_Set_add_string (s : list string) (y : string) :
  NoDup s -> NoDup (Set_add String.eqb s y).
Proof.
  intros Hs. unfold Set_add. destruct (existsb (String.eqb y) s) eqn:E.
  - exact Hs.
  - assert (Hy : ~ In y s).
    { intros Hin.
      assert (existsb (String.eqb y) s = true).
      { apply existsb_exists. exists y. split; [exact Hin|apply String.eqb_refl]. }
      congruence. }
    clear E. induction Hs as [|a s Ha Hs IH]; simpl.
    + constructor; [intros []|constructor].
    + constructor.
      * rewrite in_app_iff. simpl. intros [H|[H|[]]]; [now apply Ha|].
        subst a. apply Hy. now left.
      * apply IH. intros H. apply Hy. now right.
Qed.

Lemma requested_keys_ext (h1 h2 : loc -> JsObj) (items : list loc) (acc : list string) :
  (forall l, with_default_accessType (h1 l) = with_default_accessType (h2 l)) ->
  requested_keys h1 items acc = requested_keys h2 items acc.
Proof.
  intros H. unfold requested_keys. revert acc.
  induction items as [|item items IH]; intros acc; simpl.
  - reflexivity.
  - rewrite H. apply IH.
Qed.

Lemma requested_purposes_ext (h1 h2 : loc -> JsObj) (items : list loc)
    (acc : list JsVal) :
  (forall l, obj_get (h1 l) "purposeId" = obj_get (h2 l) "purposeId") ->
  requested_purposes h1 items acc = requested_purposes h2 items acc.
Proof.
  intros H. unfold requested_purposes. revert acc.
  induction items as [|item items IH]; intros acc; simpl.
  - reflexivity.
  - rewrite H. apply IH.
Qed.

Lemma NoDup_requested_keys (h : loc -> JsObj) (items : list loc) (acc : list string) :
  NoDup acc -> NoDup (requested_keys h items acc).
Proof.
  unfold requested_keys. revert acc.
  induction items as [|item items IH]; intros acc Hacc; simpl.
  - exact Hacc.
  - apply IH. now apply NoDup_Set_add_string.
Qed.

Lemma In_requested_keys (h : loc -> JsObj) (items : list loc) (acc : list string)
    (k : string) :
  In k (requested_keys h items acc)
  <-> In k acc
      \/ exists item, In item items
                      /\ k = item_name (with_default_accessType (h item)).
Proof.
  unfold requested_keys. revert acc.
  induction items as [|item items IH]; intros acc; simpl.
  - split; [auto|]. intros [H|[item [[] _]]]. exact H.
  - rewrite IH, In_Set_add_string. split.
    + intros [[H|H]|[item' [Hin Hk]]]; eauto.
    + intros [H|[item' [[<-|Hin] Hk]]]; eauto.
Qed.

(** ** The loop of [getConsentMetadata] *)

Lemma collect_items_step (item : loc) (rest : list loc) (purposes : list JsVal)
    (itemNameSet : list string) (w : World) :
  exists w1,
    collect_items (item :: rest) purposes itemNameSet w
    = collect_items rest
        (Set_add same_value_zero purposes (obj_get (heap w item) "purposeId"))
        (Set_add String.eqb itemNameSet
           (item_name (with_default_accessType (heap w item))))
        w1
    /\ calls w1 = calls w
    /\ (forall l, heap w1 l
                  = if Nat.eqb l item then with_default_accessType (heap w item)
                    else heap w l).
Proof.
  unfold with_default_accessType.
  destruct (negb (truthy (obj_get (heap w item) "accessTypeId"))
            || is_nullish (obj_get (heap w item) "accessTypeId")) eqn:Hc.
  - exists {| calls := calls w;
              heap := fun l => if Nat.eqb l item
                               then obj_set (heap w item) "accessTypeId" (VStr "default")
                               else heap w l |}.
    split; [|split; [reflexivity|intros l; reflexivity]].
    simpl. unfold read, write. simpl. rewrite Hc. simpl.
    rewrite Nat.eqb_refl. reflexivity.
  - exists w.
    split; [|split; [reflexivity|]].
    + simpl. unfold read. simpl. rewrite Hc. reflexivity.
    + intros l. destruct (Nat.eqb l item) eqn:E; [|reflexivity].
      apply Nat.eqb_eq in E. now subst l.
Qed.

Lemma collect_items_run (items : list loc) :
  forall (purposes : list JsVal) (itemNameSet : list string) (w : World),
  exists w',
    collect_items items purposes itemNameSet w
    = (Normal (requested_purposes (heap w) items purposes,
               requested_keys (heap w) items itemNameSet), w')
    /\ calls w' = calls w
    /\ (forall l, heap w' l = defaulted (heap w) items l).
Proof.
  induction items as [|item items IH]; intros purposes itemNameSet w.
  - exists w. simpl. auto.
  - destruct (collect_items_step item items purposes itemNameSet w)
      as [w1 [Hstep [Hcalls Hheap]]].
    destruct (IH (Set_add same_value_zero purposes (obj_get (heap w item) "purposeId"))
                (Set_add String.eqb itemNameSet
                   (item_name (with_default_accessType (heap w item)))) w1)
      as [w' [Hrun [Hcalls' Hheap']]].
    exists w'. rewrite Hstep, Hrun.
    assert (Hwd : forall l, with_default_accessType (heap w1 l)
                            = with_default_accessType (heap w l)).
    { intros l. rewrite Hheap. destruct (Nat.eqb l item) eqn:E; [|reflexivity].
      apply Nat.eqb_eq in E. subst l. apply with_default_accessType_idem. }
    assert (Hp : forall l, obj_get (heap w1 l) "purposeId"
                           = obj_get (heap w l) "purposeId").
    { intros l. rewrite Hheap. destruct (Nat.eqb l item) eqn:E; [|reflexivity].
      apply Nat.eqb_eq in E. subst l.
      apply with_default_accessType_other. discriminate. }
    split; [|split].
    + rewrite (requested_purposes_ext _ _ _ _ Hp),
        (requested_keys_ext _ _ _ _ Hwd).
      reflexivity.
    + congruence.
    + intros l. rewrite Hheap'. unfold defaulted. simpl.
      rewrite Hwd, Hheap.
      destruct (Nat.eqb l item) eqn:E; simpl; [|reflexivity].
      apply Nat.eqb_eq in E. subst l.
      destruct (existsb (Nat.eqb item) items); reflexivity.
Qed.

Lemma existsb_eqb_In (l : loc) (items : list loc) :
  existsb (Nat.eqb l) items = true <-> In l items.
Proof.
  rewrite existsb_exists. split.
  - intros [x [Hin E]]. apply Nat.eqb_eq in E. now subst x.
  - intros Hin. exists l. split; [exact Hin|apply Nat.eqb_refl].
Qed.

Lemma defaulted_In (h : loc -> JsObj) (items : list loc) (l : loc) :
  In l items -> defaulted h items l = with_default_accessType (h l).
Proof.
  intros Hin. unfold defaulted.
  apply existsb_eqb_In in Hin. now rewrite Hin.
Qed.

Lemma defaulted_not_In (h : loc -> JsObj) (items : list loc) (l : loc) :
  ~ In l items -> defaulted h items l = h l.
Proof.
  intros Hin. unfold defaulted.
  destruct (existsb (Nat.eqb l) items) eqn:E; [|reflexivity].
  apply existsb_eqb_In in E. contradiction.
Qed.

(** The template literal of the code builds the key of the specification. *)
Lemma item_name_RequestedSlotKey (o : JsObj) :
  item_name o = RequestedSlotKey o.
Proof.
  unfold item_name, RequestedSlotKey, StringUtils.getOrDefault, or_empty.
  destruct (is_nullish (obj_get o "attributeId"));
    destruct (is_nullish (obj_get o "accessTypeId")); reflexivity.
Qed.

Section Normalizer.

Variable new_DPCMService : JsVal -> JsVal -> JsVal -> Completion DPCMService.t.

Lemma new_service_any_world (self : Privacy) (service : DPCMService.t) (w w2 : World) :
  new_service new_DPCMService self w = (Normal service, w) ->
  new_service new_DPCMService self w2 = (Normal service, w2).
Proof.
  unfold new_service, lift. simpl.
  destruct (get_prop (_config self) (KName "tenantUrl")) as [tenantUrl|e];
    [|discriminate].
  intros [= H]. now rewrite H.
Qed.

Lemma getConsentMetadata_settled (self : Privacy) (service : DPCMService.t)
    (items : list loc) (w : World) :
  new_service new_DPCMService self w = (Normal service, w) ->
  exists w1,
    calls w1 = calls w
    /\ (forall l, heap w1 l = defaulted (heap w) items l)
    /\ getConsentMetadata new_DPCMService self items w
       = let purposes := VArr (requested_purposes (heap w) items []) in
         let keys := requested_keys (heap w) items [] in
         let w2 := logged (Call_getConsentMetadata purposes) w1 in
         match DPCMService.getConsentMetadata service purposes with
         | Throw error => catch_block error w2
         | Normal response =>
             let w3 := logged (Call_processConsentMetadata keys response) w2 in
             match DPCMService.processConsentMetadata service keys response with
             | Throw error => catch_block error w3
             | Normal metadata =>
                 (Normal (VObj [("status", VStr "done"); ("metadata", metadata)]), w3)
             end
         end.
Proof.
  intros Hsvc.
  destruct (collect_items_run items [] [] w) as [w1 [Hrun [Hcalls Hheap]]].
  exists w1. split; [exact Hcalls|]. split; [exact Hheap|].
  unfold getConsentMetadata. simpl. rewrite Hsvc.
  unfold try_catch. simpl. rewrite Hrun. unfold await, logged. simpl.
  destruct (DPCMService.getConsentMetadata service
              (VArr (requested_purposes (heap w) items [])))
    as [response|error]; simpl; [|reflexivity].
  destruct (DPCMService.processConsentMetadata service
              (requested_keys (heap w) items []) response)
    as [metadata|error]; reflexivity.
Qed.

(** A collaborator failure that carries a response is caught and returned as
    a value: with [detail] when the response has data, bare otherwise. *)
Lemma failure_with_response_is_error_value (self : Privacy)
    (service : DPCMService.t) (items v response data : JsVal) (w : World) :
  new_service new_DPCMService self w = (Normal service, w) ->
  DPCMService.requestApproval service items = Throw (Thrown v) ->
  get_prop v (KName "response") = Normal response ->
  get_prop response (KName "data") = Normal data ->
  fst (assess new_DPCMService self items w)
  = Normal (if truthy data
            then VObj [("status", VStr "error"); ("detail", data)]
            else VObj [("status", VStr "error")]).
Proof.
  intros Hsvc Hreq Hr Hd.
  rewrite (assess_settled new_DPCMService self service items w Hsvc), Hreq.
  now rewrite (catch_block_response v response data _ Hr Hd).
Qed.

Lemma metadata_failure_with_response_is_error_value (self : Privacy)
    (service : DPCMService.t) (locs : list loc) (v response data : JsVal)
    (w : World) :
  new_service new_DPCMService self w = (Normal service, w) ->
  (forall purposes,
      DPCMService.getConsentMetadata service purposes = Throw (Thrown v)) ->
  get_prop v (KName "response") = Normal response ->
  get_prop response (KName "data") = Normal data ->
  fst (getConsentMetadata new_DPCMService self locs w)
  = Normal (if truthy data
            then VObj [("status", VStr "error"); ("detail", data)]
            else VObj [("status", VStr "error")]).
Proof.
  intros Hsvc Hget Hr Hd.
  destruct (getConsentMetadata_settled self service locs w Hsvc)
    as [w1 [_ [_ Hrun]]].
  rewrite Hrun. simpl. rewrite Hget.
  now rewrite (catch_block_response v response data _ Hr Hd).
Qed.

(** C3 (the code departs from it).  When the failure a collaborator rejects
    with has no [response], the [catch] block of either method throws while it
    reads [error.response.data]: the promise is rejected with a TypeError and
    no status "error" value is returned. *)
Theorem failure_without_response_rejects (self : Privacy)
    (service : DPCMService.t) (items : JsVal) (locs : list loc)
    (v response : JsVal) (w : World) :
  new_service new_DPCMService self w = (Normal service, w) ->
  get_prop v (KName "response") = Normal response ->
  is_nullish response = true ->
  (DPCMService.requestApproval service items = Throw (Thrown v) ->
   fst (assess new_DPCMService self items w) = Throw TypeError)
  /\ ((forall purposes,
         DPCMService.getConsentMetadata service purposes = Throw (Thrown v)) ->
      fst (getConsentMetadata new_DPCMService self locs w) = Throw TypeError).
Proof.
  intros Hsvc Hr Hn. split.
  - intros Hreq.
    rewrite (assess_settled new_DPCMService self service items w Hsvc), Hreq.
    now rewrite (catch_block_no_response v response _ Hr Hn).
  - intros Hget.
    destruct (getConsentMetadata_settled self service locs w Hsvc)
      as [w1 [_ [_ Hrun]]].
    rewrite Hrun. simpl. rewrite Hget.
    now rewrite (catch_block_no_response v response _ Hr Hn).
Qed.

(** C6.  The loop of [getConsentMetadata] always completes.  For every item
    the key it computes, on the item as it stands after the access type has
    been defaulted, is purposeId + "/" + attributeId + "." + accessTypeId with
    the empty string for a missing part; the keys are gathered in a set, so
    the collection holds no key twice and holds exactly the keys of the items;
    and that set is what [processConsentMetadata] is called with. *)
Theorem requested_slot_keys (items : list loc) (w : World) :
  exists purposes keys w1,
    collect_items items [] [] w = (Normal (purposes, keys), w1)
    /\ (forall item, In item items ->
                     heap w1 item = with_default_accessType (heap w item)
                     /\ item_name (heap w1 item) = RequestedSlotKey (heap w1 item))
    /\ NoDup keys
    /\ (forall k, In k keys
                  <-> exists item, In item items
                                   /\ k = RequestedSlotKey (heap w1 item))
    /\ (forall self service response,
          new_service new_DPCMService self w = (Normal service, w) ->
          DPCMService.getConsentMetadata service (VArr purposes) = Normal response ->
          calls (snd (getConsentMetadata new_DPCMService self items w))
          = calls w ++ [Call_getConsentMetadata (VArr purposes);
                        Call_processConsentMetadata keys response]).
Proof.
  destruct (collect_items_run items [] [] w) as [w1 [Hrun [Hcalls Hheap]]].
  exists (requested_purposes (heap w) items []),
    (requested_keys (heap w) items []), w1.
  split; [exact Hrun|].
  split.
  { intros item Hin. rewrite Hheap, (defaulted_In _ _ _ Hin).
    split; [reflexivity|apply item_name_RequestedSlotKey]. }
  split; [apply NoDup_requested_keys; constructor|].
  split.
  { intros k. rewrite In_requested_keys. simpl. split.
    - intros [[]|[item [Hin Hk]]]. exists item. split; [exact Hin|].
      now rewrite Hheap, (defaulted_In _ _ _ Hin), <- item_name_RequestedSlotKey.
    - intros [item [Hin Hk]]. right. exists item. split; [exact Hin|].
      now rewrite Hk, Hheap, (defaulted_In _ _ _ Hin), item_name_RequestedSlotKey. }
  intros self service response Hsvc Hget.
  destruct (getConsentMetadata_settled self service items w Hsvc)
    as [w1' [Hcalls' [_ Hsettled]]].
  rewrite Hsettled. simpl. rewrite Hget.
  destruct (DPCMService.processConsentMetadata service
              (requested_keys (heap w) items []) response) as [metadata|error];
    simpl.
  - rewrite Hcalls', <- app_assoc. reflexivity.
  - assert (Hc : forall w0, calls (snd (catch_block error w0)) = calls w0).
    { intros w0. unfold catch_block, lift. simpl.
      destruct (error_response error) as [r|e]; simpl; [|reflexivity].
      destruct (get_prop r (KName "data")) as [d|e]; simpl; [|reflexivity].
      destruct (truthy d); reflexivity. }
    rewrite Hc. simpl. rewrite Hcalls', <- app_assoc. reflexivity.
Qed.

Lemma catch_block_pure (error : Exn) (w w' : World) :
  snd (catch_block error w) = w
  /\ fst (catch_block error w) = fst (catch_block error w').
Proof.
  unfold catch_block, lift. simpl.
  destruct (error_response error) as [r|e]; simpl; [|auto].
  destruct (get_prop r (KName "data")) as [d|e]; simpl; [|auto].
  destruct (truthy d); auto.
Qed.

(** What a call leaves behind and returns, read off its settled form. *)
Lemma getConsentMetadata_effects (self : Privacy) (service : DPCMService.t)
    (items : list loc) (w : World) :
  new_service new_DPCMService self w = (Normal service, w) ->
  exists (outcome : Completion JsVal) (log : list Call),
    (forall w2,
        requested_purposes (heap w2) items [] = requested_purposes (heap w) items [] ->
        requested_keys (heap w2) items [] = requested_keys (heap w) items [] ->
        fst (getConsentMetadata new_DPCMService self items w2) = outcome
        /\ calls (snd (getConsentMetadata new_DPCMService self items w2))
           = calls w2 ++ log
        /\ (forall l, heap (snd (getConsentMetadata new_DPCMService self items w2)) l
                      = defaulted (heap w2) items l)).
Proof.
  intros Hsvc.
  set (purposes := VArr (requested_purposes (heap w) items [])).
  set (keys := requested_keys (heap w) items []).
  exists (match DPCMService.getConsentMetadata service purposes with
          | Throw error => fst (catch_block error w)
          | Normal response =>
              match DPCMService.processConsentMetadata service keys response with
              | Throw error => fst (catch_block error w)
              | Normal metadata =>
                  Normal (VObj [("status", VStr "done"); ("metadata", metadata)])
              end
          end),
    (match DPCMService.getConsentMetadata service purposes with
     | Throw _ => [Call_getConsentMetadata purposes]
     | Normal response =>
         [Call_getConsentMetadata purposes;
          Call_processConsentMetadata keys response]
     end).
  intros w2 Hp Hk.
  pose proof (new_service_any_world self service w w2 Hsvc) as Hsvc2.
  destruct (getConsentMetadata_settled self service items w2 Hsvc2)
    as [w1 [Hcalls [Hheap Hrun]]].
  rewrite Hrun, Hp, Hk. fold purposes keys. simpl.
  destruct (DPCMService.getConsentMetadata service purposes) as [response|error].
  - destruct (DPCMService.processConsentMetadata service keys response)
      as [metadata|error]; simpl.
    + rewrite Hcalls, <- app_assoc. auto.
    + match goal with
      | |- context [catch_block error ?w0] =>
          destruct (catch_block_pure error w0 w) as [Hw Hf]
      end.
      rewrite Hw, Hf. simpl. rewrite Hcalls, <- app_assoc. auto.
  - match goal with
    | |- context [catch_block error ?w0] =>
        destruct (catch_block_pure error w0 w) as [Hw Hf]
    end.
    rewrite Hw, Hf. simpl. rewrite Hcalls. auto.
Qed.

(** C7.  [getConsentMetadata] changes the caller's items where they are: after
    the call every item of the list holds what it held with accessTypeId
    defaulted, and no other object is touched.  Defaulting sets accessTypeId
    to "default" when it is absent or null and leaves every other property as
    it was.  An item that omits accessTypeId is treated as the same item
    supplied with "default": defaulting makes them equal, and a call on such
    items returns the same promise, makes the same collaborator calls and
    leaves the same items. *)
Theorem accessType_defaulted_in_place (self : Privacy) (service : DPCMService.t)
    (items : list loc) (w : World) :
  new_service new_DPCMService self w = (Normal service, w) ->
  (forall item, In item items ->
                heap (snd (getConsentMetadata new_DPCMService self items w)) item
                = with_default_accessType (heap w item))
  /\ (forall l, ~ In l items ->
                heap (snd (getConsentMetadata new_DPCMService self items w)) l
                = heap w l)
  /\ (forall o, is_nullish (obj_get o "accessTypeId") = true ->
                obj_get (with_default_accessType o) "accessTypeId" = VStr "default")
  /\ (forall o k, k <> "accessTypeId" ->
                  obj_get (with_default_accessType o) k = obj_get o k)
  /\ (forall o, is_nullish (obj_get o "accessTypeId") = true ->
                with_default_accessType o
                = with_default_accessType (obj_set o "accessTypeId" (VStr "default")))
  /\ (forall w2,
        calls w2 = calls w ->
        (forall l, heap w2 l = heap w l
                   \/ (is_nullish (obj_get (heap w l) "accessTypeId") = true
                       /\ heap w2 l = obj_set (heap w l) "accessTypeId" (VStr "default"))) ->
        fst (getConsentMetadata new_DPCMService self items w2)
        = fst (getConsentMetadata new_DPCMService self items w)
        /\ calls (snd (getConsentMetadata new_DPCMService self items w2))
           = calls (snd (getConsentMetadata new_DPCMService self items w))
        /\ (forall item, In item items ->
               heap (snd (getConsentMetadata new_DPCMService self items w2)) item
               = heap (snd (getConsentMetadata new_DPCMService self items w)) item)).
Proof.
  intros Hsvc.
  destruct (getConsentMetadata_effects self service items w Hsvc)
    as [outcome [log Heff]].
  destruct (Heff w eq_refl eq_refl) as [Hout [Hlog Hheap]].
  assert (Hsame : forall o, is_nullish (obj_get o "accessTypeId") = true ->
                  with_default_accessType o
                  = with_default_accessType (obj_set o "accessTypeId" (VStr "default"))).
  { intros o Hn.
    rewrite (with_default_accessType_set o (nullish_not_truthy _ Hn)).
    symmetry. apply with_default_accessType_kept.
    now rewrite obj_get_set_same. }
  split; [intros item Hin; now rewrite Hheap, (defaulted_In _ _ _ Hin)|].
  split; [intros l Hin; now rewrite Hheap, (defaulted_not_In _ _ _ Hin)|].
  split.
  { intros o Hn.
    rewrite (with_default_accessType_set o (nullish_not_truthy _ Hn)).
    apply obj_get_set_same. }
  split; [intros o k; apply with_default_accessType_other|].
  split; [exact Hsame|].
  intros w2 Hcalls Hrel.
  assert (Hwd : forall l, with_default_accessType (heap w2 l)
                          = with_default_accessType (heap w l)).
  { intros l. destruct (Hrel l) as [->|[Hn ->]]; [reflexivity|].
    symmetry. now apply Hsame. }
  assert (Hp : forall l, obj_get (heap w2 l) "purposeId"
                         = obj_get (heap w l) "purposeId").
  { intros l. destruct (Hrel l) as [->|[Hn ->]]; [reflexivity|].
    apply obj_get_set_other. discriminate. }
  destruct (Heff w2 (requested_purposes_ext _ _ _ _ Hp)
              (requested_keys_ext _ _ _ _ Hwd)) as [Hout2 [Hlog2 Hheap2]].
  split; [congruence|]. split; [congruence|].
  intros item Hin.
  now rewrite Hheap2, Hheap, !(defaulted_In _ _ _ Hin).
Qed.

End Normalizer.

(** ** Construction *)

Lemma has_object (props : JsObj) (k : string) :
  StringUtils.has (VObj props) k = false <-> obj_lookup props k = None.
Proof.
  simpl. destruct (obj_lookup props k); split; congruence.
Qed.

(** C8.  The constructor throws a ConfigurationError exactly when config lacks
    the property tenantUrl or auth lacks the property accessToken.  Otherwise
    it returns the instance that holds config, auth and context as given (the
    empty object standing for a context left out).  Either way the world is
    left as it was: no collaborator call is made. *)
Theorem constructor_guard (config auth context : JsVal) (w : World) :
  ((exists message,
       fst (constructor config auth context w) = Throw (ConfigurationError message))
   <-> StringUtils.has config "tenantUrl" = false
       \/ StringUtils.has auth "accessToken" = false)
  /\ (StringUtils.has config "tenantUrl" = true ->
      StringUtils.has auth "accessToken" = true ->
      fst (constructor config auth context w)
      = Normal {| _config := config;
                  _auth := auth;
                  _context := default_param context (VObj []) |})
  /\ (context <> VUndefined -> default_param context (VObj []) = context)
  /\ snd (constructor config auth context w) = w.
Proof.
  unfold constructor, throw. simpl.
  destruct (StringUtils.has config "tenantUrl") eqn:Hc;
    destruct (StringUtils.has auth "accessToken") eqn:Ha; simpl.
  all: split; [split; [intros [message H]; try discriminate; auto
                      |intros [H|H]; try discriminate; eauto]|].
  all: split; [intros; try discriminate; reflexivity|].
  all: split; [|reflexivity].
  all: destruct context; intros H; try reflexivity; now elim H.
Qed.

(** ** The scenarios of the specification *)

(** Scenario A: one approved item. *)
Example scenario_A :
  fst (assess (stub_factory echo_service) sample_privacy
         (VArr [approved_item]) empty_world)
  = Normal (VObj [("status", VStr "approved"); ("assessment", VArr [approved_item])]).
Proof. reflexivity. Qed.

(** Scenario B: one approved item, one that requires consent. *)
Example scenario_B :
  fst (assess (stub_factory echo_service) sample_privacy
         (VArr [approved_item; consent_item]) empty_world)
  = Normal (VObj [("status", VStr "consent");
                  ("assessment", VArr [approved_item; consent_item])]).
Proof. reflexivity. Qed.

(** Scenario C: the collaborator rejects with a structured payload. *)
Example scenario_C :
  let payload := VObj [("messageId", VStr "E1"); ("messageDescription", VStr "bad")] in
  let failure := Throw (Thrown (VObj [("response", VObj [("data", payload)])])) in
  fst (assess (stub_factory (stub_service failure failure failure))
         sample_privacy (VArr []) empty_world)
  = Normal (VObj [("status", VStr "error"); ("detail", payload)]).
Proof. reflexivity. Qed.

(** ** The theorems at work *)

Lemma consent_takes_precedence_witness :
  fst (assess (stub_factory echo_service) sample_privacy
         (VArr [approved_item; consent_item; approved_item]) empty_world)
  = Normal (VObj [("status", VStr "consent");
                  ("assessment", VArr [approved_item; consent_item; approved_item])]).
Proof.
  apply (fun Hsvc Hreq Hs Hex =>
           proj1 (consent_takes_precedence (stub_factory echo_service)
                    sample_privacy echo_service
                    (VArr [approved_item; consent_item; approved_item])
                    [approved_item; consent_item; approved_item] empty_world
                    Hsvc Hreq Hs Hex)).
  - reflexivity.
  - reflexivity.
  - reflexivity.
  - exists consent_item. split; [right; left; reflexivity|reflexivity].
Defined.

(** The array [[consent item, {result: []}]] holds an item that requires
    consent, and [assess] does not return status "consent" on it: the promise
    is rejected. *)
Lemma consent_lost_to_empty_result :
  (exists ia, In ia [consent_item; empty_result_item] /\ requires_consent ia = true)
  /\ DPCMService.requestApproval echo_service (VArr [consent_item; empty_result_item])
     = Normal (VArr [consent_item; empty_result_item])
  /\ fst (assess (stub_factory echo_service) sample_privacy
            (VArr [consent_item; empty_result_item]) empty_world)
     = Throw TypeError
  /\ ~ returns_status
        (fst (assess (stub_factory echo_service) sample_privacy
                (VArr [consent_item; empty_result_item]) empty_world))
        "consent".
Proof.
  split; [exists consent_item; split; [left; reflexivity|reflexivity]|].
  split; [reflexivity|].
  split; [reflexivity|].
  unfold returns_status. simpl. discriminate.
Qed.

Lemma denied_without_approval_or_consent_witness :
  fst (assess (stub_factory echo_service) sample_privacy
         (VArr [denied_item; no_result_item]) empty_world)
  = Normal (VObj [("status", VStr "denied");
                  ("assessment", VArr [denied_item; no_result_item])])
  /\ fst (assess (stub_factory echo_service) sample_privacy (VArr []) empty_world)
     = Normal (VObj [("status", VStr "denied"); ("assessment", VArr [])]).
Proof.
  destruct (denied_without_approval_or_consent (stub_factory echo_service)
              sample_privacy echo_service empty_world eq_refl) as [Hall Hempty].
  split.
  - apply Hall; reflexivity.
  - apply Hempty; reflexivity.
Defined.

(** In the array [[{result: [{approved: false}]}]] no first result entry is
    approved and no item carries CSIBT0033I, and [assess] does not return
    status "denied" on it: the promise is rejected. *)
Lemma denied_lost_to_missing_reason :
  existsb is_approved [no_reason_item] = false
  /\ existsb requires_consent [no_reason_item] = false
  /\ entry_messageId (VObj [("approved", VBool false)]) = None
  /\ DPCMService.requestApproval echo_service (VArr [no_reason_item])
     = Normal (VArr [no_reason_item])
  /\ fst (assess (stub_factory echo_service) sample_privacy
            (VArr [no_reason_item]) empty_world)
     = Throw TypeError
  /\ ~ returns_status
        (fst (assess (stub_factory echo_service) sample_privacy
                (VArr [no_reason_item]) empty_world))
        "denied".
Proof.
  repeat (split; [reflexivity|]).
  unfold returns_status. simpl. discriminate.
Qed.

Lemma silent_items_are_skipped_witness :
  status_of (fst (assess (stub_factory echo_service) sample_privacy
                    (VArr [approved_item; no_result_item; denied_item]) empty_world))
  = status_of (fst (assess (stub_factory echo_service) sample_privacy
                      (VArr [approved_item; denied_item]) empty_world))
  /\ status_of (fst (assess (stub_factory echo_service) sample_privacy
                       (VArr [no_messageId_item]) empty_world))
     = status_of (fst (assess (stub_factory echo_service) sample_privacy
                         (VArr []) empty_world)).
Proof.
  split.
  - apply (silent_items_are_skipped (stub_factory echo_service) sample_privacy
             echo_service
             (VArr [approved_item; no_result_item; denied_item])
             (VArr [approved_item; denied_item])
             [approved_item] [denied_item] no_result_item empty_world);
      reflexivity.
  - apply (silent_items_are_skipped (stub_factory echo_service) sample_privacy
             echo_service (VArr [no_messageId_item]) (VArr [])
             [] [] no_messageId_item empty_world);
      reflexivity.
Defined.

Lemma failure_without_response_rejects_witness :
  fst (assess
         (stub_factory
            (stub_service (Throw (Thrown network_failure))
               (Throw (Thrown network_failure)) (Throw TypeError)))
         sample_privacy (VArr []) sample_world)
  = Throw TypeError
  /\ fst (getConsentMetadata
            (stub_factory
               (stub_service (Throw (Thrown network_failure))
                  (Throw (Thrown network_failure)) (Throw TypeError)))
            sample_privacy [0; 1; 2] sample_world)
     = Throw TypeError.
Proof.
  destruct (failure_without_response_rejects
              (stub_factory
                 (stub_service (Throw (Thrown network_failure))
                    (Throw (Thrown network_failure)) (Throw TypeError)))
              sample_privacy
              (stub_service (Throw (Thrown network_failure))
                 (Throw (Thrown network_failure)) (Throw TypeError))
              (VArr []) [0; 1; 2] network_failure VUndefined sample_world
              eq_refl eq_refl eq_refl) as [Hassess Hmeta].
  split.
  - apply Hassess. reflexivity.
  - apply Hmeta. intros purposes. reflexivity.
Defined.

Lemma non_array_response_is_error_value_witness :
  fst (assess (stub_factory echo_service) sample_privacy (VStr "approved") empty_world)
  = Normal
      (VObj
         [("status", VStr "error");
          ("data",
           VObj
             [("messageId", VStr "INVALID_DATATYPE");
              ("messageDescription",
               VStr "'assessment' is expected to be an array. Received string")])]).
Proof.
  rewrite (non_array_response_is_error_value (stub_factory echo_service)
             sample_privacy echo_service (VStr "approved") (VStr "approved")
             empty_world eq_refl eq_refl eq_refl).
  reflexivity.
Defined.

Lemma requested_slot_keys_witness :
  exists keys,
    NoDup keys
    /\ (forall k, In k keys <-> k = "p1/.default" \/ k = "p2/email.default").
Proof.
  destruct (requested_slot_keys (stub_factory echo_service) [0; 1; 2] sample_world)
    as [purposes [keys [w1 [Hrun [Hitems [Hnd [Hin _]]]]]]].
  exists keys. split; [exact Hnd|].
  assert (H0 : RequestedSlotKey (heap w1 0) = "p1/.default").
  { rewrite (proj1 (Hitems 0 (or_introl eq_refl))). reflexivity. }
  assert (H1 : RequestedSlotKey (heap w1 1) = "p1/.default").
  { rewrite (proj1 (Hitems 1 (or_intror (or_introl eq_refl)))). reflexivity. }
  assert (H2 : RequestedSlotKey (heap w1 2) = "p2/email.default").
  { rewrite (proj1 (Hitems 2 (or_intror (or_intror (or_introl eq_refl))))).
    reflexivity. }
  intros k. rewrite Hin. split.
  - intros [item [[<-|[<-|[<-|[]]]] ->]]; auto.
  - intros [->| ->].
    + exists 0. split; [left; reflexivity|now rewrite H0].
    + exists 2. split; [right; right; left; reflexivity|now rewrite H2].
Defined.

Lemma accessType_defaulted_in_place_witness :
  heap (snd (getConsentMetadata (stub_factory echo_service) sample_privacy
               [0; 2] sample_world)) 0
  = [("purposeId", VStr "p1"); ("accessTypeId", VStr "default")]
  /\ heap (snd (getConsentMetadata (stub_factory echo_service) sample_privacy
                  [0; 2] sample_world)) 1
     = [("purposeId", VStr "p1"); ("accessTypeId", VStr "default")]
  /\ heap (snd (getConsentMetadata (stub_factory echo_service) sample_privacy
                  [0; 2] sample_world)) 2
     = [("purposeId", VStr "p2"); ("attributeId", VStr "email");
        ("accessTypeId", VStr "default")].
Proof.
  destruct (accessType_defaulted_in_place (stub_factory echo_service)
              sample_privacy echo_service [0; 2] sample_world eq_refl)
    as [Hin [Hout _]].
  split; [|split].
  - rewrite (Hin 0 (or_introl eq_refl)). reflexivity.
  - rewrite (Hout 1).
    + reflexivity.
    + intros [H|[H|[]]]; discriminate.
  - rewrite (Hin 2 (or_intror (or_introl eq_refl))). reflexivity.
Defined.

Lemma constructor_guard_witness :
  (exists message,
      fst (constructor (VObj [("tenantUrl", VStr "https://tenant.example")])
             (VObj [("clientId", VStr "app")]) VUndefined empty_world)
      = Throw (ConfigurationError message))
  /\ fst (constructor (VObj [("tenantUrl", VStr "https://tenant.example")])
            (VObj [("accessToken", VStr "token")]) VUndefined empty_world)
     = Normal sample_privacy.
Proof.
  split.
  - apply (proj1 (constructor_guard
                    (VObj [("tenantUrl", VStr "https://tenant.example")])
                    (VObj [("clientId", VStr "app")]) VUndefined empty_world)).
    right. reflexivity.
  - apply (proj1 (proj2 (constructor_guard
                           (VObj [("tenantUrl", VStr "https://tenant.example")])
                           (VObj [("accessToken", VStr "token")]) VUndefined
                           empty_world)));
      reflexivity.
Defined.

Lemma approved_survives_denied_items_witness :
  fst (assess (stub_factory echo_service) sample_privacy
         (VArr [approved_item; denied_item]) empty_world)
  = Normal (VObj [("status", VStr "approved");
                  ("assessment", VArr [approved_item; denied_item])]).
Proof.
  apply (proj1 (approved_survives_denied_items (stub_factory echo_service)
                  sample_privacy echo_service (VArr [approved_item; denied_item])
                  [approved_item; denied_item] empty_world eq_refl eq_refl));
    reflexivity.
Defined.

Lemma empty_result_rejects_witness :
  assess_item VNull empty_result_item = Throw TypeError
  /\ fst (assess (stub_factory echo_service) sample_privacy
            (VArr [approved_item; empty_result_item]) empty_world)
     = Throw TypeError.
Proof.
  destruct (empty_result_rejects (stub_factory echo_service) sample_privacy
              echo_service (VArr [approved_item; empty_result_item])
              [approved_item; empty_result_item] empty_result_item empty_world
              eq_refl eq_refl (or_intror (or_introl eq_refl)) eq_refl)
    as [Hitem [_ [_ Hrun]]].
  split; [apply Hitem|].
  rewrite Hrun. reflexivity.
Defined.

(** ** Further properties of [assess] *)

Lemma catch_block_value (error : Exn) (w : World) (r : JsVal) :
  fst (catch_block error w) = Normal r ->
  r = VObj [("status", VStr "error")]
  \/ exists data, truthy data = true
                  /\ r = VObj [("status", VStr "error"); ("detail", data)].
Proof.
  unfold catch_block, lift. simpl.
  destruct (error_response error) as [response|e]; simpl; [|discriminate].
  destruct (get_prop response (KName "data")) as [data|e]; simpl; [|discriminate].
  destruct (truthy data) eqn:Ht; simpl; intros [= <-]; eauto.
Qed.

Lemma existsb_Permutation {A : Type} (f : A -> bool) (l l' : list A) :
  Permutation l l' -> existsb f l = existsb f l'.
Proof.
  induction 1 as [|x l l' _ IH|x y l|l l' l'' _ IH1 _ IH2]; simpl.
  - reflexivity.
  - now rewrite IH.
  - destruct (f x), (f y); reflexivity.
  - congruence.
Qed.

Lemma forallb_Permutation {A : Type} (f : A -> bool) (l l' : list A) :
  Permutation l l' -> forallb f l = forallb f l'.
Proof.
  induction 1 as [|x l l' _ IH|x y l|l l' l'' _ IH1 _ IH2]; simpl.
  - reflexivity.
  - now rewrite IH.
  - destruct (f x), (f y); reflexivity.
  - congruence.
Qed.

Section AggregatorProperties.

Variable new_DPCMService : JsVal -> JsVal -> JsVal -> Completion DPCMService.t.

(** X1.  Whatever the collaborator does, a value [assess] resolves with has
    a status among "approved", "consent", "denied" and "error"; the status is
    other than "error" only when [requestApproval] resolved with an array, and
    then the value carries that very array as its assessment. *)
Theorem assess_status_range (self : Privacy) (service : DPCMService.t)
    (items r : JsVal) (w : World) :
  new_service new_DPCMService self w = (Normal service, w) ->
  fst (assess new_DPCMService self items w) = Normal r ->
  exists s,
    get_prop r (KName "status") = Normal (VStr s)
    /\ is_status s
    /\ (s <> "error" ->
        exists elems,
          DPCMService.requestApproval service items = Normal (VArr elems)
          /\ get_prop r (KName "assessment") = Normal (VArr elems)).
Proof.
  intros Hsvc Hr. unfold is_status.
  destruct (DPCMService.requestApproval service items) as [v|error] eqn:Hreq.
  - destruct v as [| | | | |elems|];
      try (rewrite (assess_settled new_DPCMService self service items w Hsvc), Hreq
            in Hr;
           simpl in Hr; injection Hr as <-;
           exists "error"; split; [reflexivity|];
           split; [tauto|intros H; now elim H]).
    rewrite (assess_array new_DPCMService self service items elems w Hsvc Hreq) in Hr.
    destruct (forallb scannable elems); simpl in Hr; [|discriminate].
    injection Hr as <-.
    destruct (existsb requires_consent elems);
      [|destruct (existsb is_approved elems)];
      eexists; (split; [reflexivity|]); (split; [tauto|]);
      intros _; exists elems; split; reflexivity.
  - rewrite (assess_settled new_DPCMService self service items w Hsvc), Hreq in Hr.
    apply catch_block_value in Hr.
    destruct Hr as [->|[data [_ ->]]];
      exists "error"; (split; [reflexivity|]);
      (split; [tauto|intros H; now elim H]).
Qed.

(** X2.  [assess] makes one collaborator call, [requestApproval] on the items
    as the caller gave them, whether that call resolves with an array, with
    something else, or rejects, and whether [assess] itself resolves or
    rejects; it makes no other call and changes no request item. *)
Theorem assess_single_call (self : Privacy) (service : DPCMService.t)
    (items : JsVal) (w : World) :
  new_service new_DPCMService self w = (Normal service, w) ->
  calls (snd (assess new_DPCMService self items w))
  = calls w ++ [Call_requestApproval items]
  /\ heap (snd (assess new_DPCMService self items w)) = heap w.
Proof.
  intros Hsvc.
  rewrite (assess_settled new_DPCMService self service items w Hsvc).
  destruct (DPCMService.requestApproval service items) as [v|error].
  - destruct v; try (split; reflexivity).
    destruct (assess_loop VNull elems); split; reflexivity.
  - destruct (catch_block_pure error (logged (Call_requestApproval items) w) w)
      as [-> _].
    split; reflexivity.
Qed.

(** X3.  On an array, [assess] resolves exactly when every item can be read
    (none is null or undefined, a result that is present has a first entry, a
    first entry that is not approved has a reason); a single item that cannot
    makes the promise reject with a TypeError, whatever the other items say. *)
Theorem assess_resolves_iff_readable (self : Privacy) (service : DPCMService.t)
    (items : JsVal) (elems : list JsVal) (w : World) :
  new_service new_DPCMService self w = (Normal service, w) ->
  DPCMService.requestApproval service items = Normal (VArr elems) ->
  ((exists r, fst (assess new_DPCMService self items w) = Normal r)
   <-> forall ia, In ia elems -> scannable ia = true)
  /\ ((exists ia, In ia elems /\ scannable ia = false) ->
      fst (assess new_DPCMService self items w) = Throw TypeError).
Proof.
  intros Hsvc Hreq.
  rewrite (assess_array new_DPCMService self service items elems w Hsvc Hreq).
  rewrite <- forallb_forall.
  split.
  - destruct (forallb scannable elems); simpl; split; eauto.
    + intros [r H]. discriminate.
    + discriminate.
  - intros [ia [Hin Hs]].
    now rewrite (forallb_false_In scannable elems ia Hin Hs).
Qed.

(** X4.  The order of the items does not matter: on two arrays that hold the
    same items in different orders [assess] reports the same status, or
    rejects on both. *)
Theorem assess_order_irrelevant (self : Privacy) (service : DPCMService.t)
    (items items' : JsVal) (elems elems' : list JsVal) (w : World) :
  new_service new_DPCMService self w = (Normal service, w) ->
  DPCMService.requestApproval service items = Normal (VArr elems) ->
  DPCMService.requestApproval service items' = Normal (VArr elems') ->
  Permutation elems elems' ->
  status_of (fst (assess new_DPCMService self items w))
  = status_of (fst (assess new_DPCMService self items' w)).
Proof.
  intros Hsvc Hreq Hreq' Hperm.
  rewrite (assess_array new_DPCMService self service items elems w Hsvc Hreq).
  rewrite (assess_array new_DPCMService self service items' elems' w Hsvc Hreq').
  rewrite (forallb_Permutation scannable _ _ Hperm),
    (existsb_Permutation requires_consent _ _ Hperm),
    (existsb_Permutation is_approved _ _ Hperm).
  destruct (forallb scannable elems'); reflexivity.
Qed.

(** X5.  The status tells what the array holds: "consent" is reported only
    when some item's first result entry is refused with messageId CSIBT0033I,
    and "approved" only when some first result entry is approved and no item
    requires consent. *)
Theorem assess_status_only_if (self : Privacy) (service : DPCMService.t)
    (items : JsVal) (elems : list JsVal) (w : World) :
  new_service new_DPCMService self w = (Normal service, w) ->
  DPCMService.requestApproval service items = Normal (VArr elems) ->
  (returns_status (fst (assess new_DPCMService self items w)) "consent" ->
   exists ia, In ia elems /\ requires_consent ia = true)
  /\ (returns_status (fst (assess new_DPCMService self items w)) "approved" ->
      (exists ia, In ia elems /\ is_approved ia = true)
      /\ (forall ia, In ia elems -> requires_consent ia = false)).
Proof.
  intros Hsvc Hreq.
  rewrite (assess_array new_DPCMService self service items elems w Hsvc Hreq).
  destruct (forallb scannable elems); simpl.
  - destruct (existsb requires_consent elems) eqn:Hc.
    + split.
      * intros _. apply existsb_exists in Hc. exact Hc.
      * intros H. apply returns_status_Normal in H. discriminate.
    + destruct (existsb is_approved elems) eqn:Ha.
      * split.
        -- intros H. apply returns_status_Normal in H. discriminate.
        -- intros _. split.
           ++ apply existsb_exists in Ha. exact Ha.
           ++ intros ia Hin. destruct (requires_consent ia) eqn:E; [|reflexivity].
              assert (existsb requires_consent elems = true)
                by (apply existsb_exists; eauto).
              congruence.
      * split; intros H; apply returns_status_Normal in H; discriminate.
  - split; intros H; now apply returns_status_Throw in H.
Qed.

(** X6.  More items never lower the status: when [assess] reports "consent" on
    an array it reports "consent" on the array followed by any readable items,
    and when it reports "approved" it reports "approved" or "consent" there. *)
Theorem assess_more_items_never_lower (self : Privacy) (service : DPCMService.t)
    (items items' : JsVal) (elems more : list JsVal) (w : World) :
  new_service new_DPCMService self w = (Normal service, w) ->
  DPCMService.requestApproval service items = Normal (VArr elems) ->
  DPCMService.requestApproval service items' = Normal (VArr (elems ++ more)) ->
  forallb scannable more = true ->
  (returns_status (fst (assess new_DPCMService self items w)) "consent" ->
   returns_status (fst (assess new_DPCMService self items' w)) "consent")
  /\ (returns_status (fst (assess new_DPCMService self items w)) "approved" ->
      returns_status (fst (assess new_DPCMService self items' w)) "approved"
      \/ returns_status (fst (assess new_DPCMService self items' w)) "consent").
Proof.
  intros Hsvc Hreq Hreq' Hmore.
  rewrite (assess_array new_DPCMService self service items elems w Hsvc Hreq).
  rewrite (assess_array new_DPCMService self service items' _ w Hsvc Hreq').
  rewrite forallb_app, !existsb_app, Hmore, andb_true_r.
  destruct (forallb scannable elems); simpl.
  - destruct (existsb requires_consent elems); simpl.
    + split; intros _; [|right]; now apply returns_status_Normal.
    + destruct (existsb is_approved elems); simpl.
      * split; [intros H; apply returns_status_Normal in H; discriminate|].
        intros _.
        destruct (existsb requires_consent more);
          [right|left]; now apply returns_status_Normal.
      * split; intros H; apply returns_status_Normal in H; discriminate.
  - split; intros H; now apply returns_status_Throw in H.
Qed.

End AggregatorProperties.

(** ** Further properties of [getConsentMetadata] and of the constructor *)

Lemma same_value_zero_eq (a b : JsVal) : same_value_zero a b = true -> a = b.
Proof.
  destruct a, b; simpl; try discriminate; intros H; try reflexivity.
  - apply Bool.eqb_prop in H. now subst.
  - apply Z.eqb_eq in H. now subst.
  - apply String.eqb_eq in H. now subst.
Qed.

Lemma same_value_zero_refl (a : JsVal) :
  is_primitive a = true -> same_value_zero a a = true.
Proof.
  destruct a; simpl; try discriminate; intros _; try reflexivity.
  - apply Bool.eqb_reflx.
  - apply Z.eqb_refl.
  - apply String.eqb_refl.
Qed.

Lemma In_Set_add_value (s : list JsVal) (x y : JsVal) :
  In x (Set_add same_value_zero s y) <-> In x s \/ x = y.
Proof.
  unfold Set_add. destruct (existsb (same_value_zero y) s) eqn:E.
  - split; [auto|]. intros [H| ->]; [exact H|].
    apply existsb_exists in E. destruct E as [z [Hz Heq]].
    apply same_value_zero_eq in Heq. now subst z.
  - rewrite in_app_iff. simpl. split.
    + intros [H|[H|[]]]; auto.
    + intros [H|H]; auto.
Qed.

Lemma NoDup_Set_add_value (s : list JsVal) (y : JsVal) :
  is_primitive y = true -> NoDup s -> NoDup (Set_add same_value_zero s y).
Proof.
  intros Hy Hs. unfold Set_add. destruct (existsb (same_value_zero y) s) eqn:E.
  - exact Hs.
  - assert (Hin : ~ In y s).
    { intros Hin.
      assert (existsb (same_value_zero y) s = true).
      { apply existsb_exists. exists y.
        split; [exact Hin|now apply same_value_zero_refl]. }
      congruence. }
    clear E. induction Hs as [|a s Ha Hs IH]; simpl.
    + constructor; [intros []|constructor].
    + constructor.
      * rewrite in_app_iff. simpl. intros [H|[H|[]]]; [now apply Ha|].
        subst a. apply Hin. now left.
      * apply IH. intros H. apply Hin. now right.
Qed.

Lemma In_requested_purposes (h : loc -> JsObj) (items : list loc)
    (acc : list JsVal) (p : JsVal) :
  In p (requested_purposes h items acc)
  <-> In p acc
      \/ exists item, In item items /\ p = obj_get (h item) "purposeId".
Proof.
  unfold requested_purposes. revert acc.
  induction items as [|item items IH]; intros acc; simpl.
  - split; [auto|]. intros [H|[item [[] _]]]. exact H.
  - rewrite IH, In_Set_add_value. split.
    + intros [[H|H]|[item' [Hin Hk]]]; eauto.
    + intros [H|[item' [[<-|Hin] Hk]]]; eauto.
Qed.

Lemma NoDup_requested_purposes (h : loc -> JsObj) (items : list loc)
    (acc : list JsVal) :
  (forall item, In item items -> is_primitive (obj_get (h item) "purposeId") = true) ->
  NoDup acc -> NoDup (requested_purposes h items acc).
Proof.
  unfold requested_purposes. revert acc.
  induction items as [|item items IH]; intros acc Hprim Hacc; simpl.
  - exact Hacc.
  - apply IH.
    + intros item' Hin. apply Hprim. now right.
    + apply NoDup_Set_add_value; [apply Hprim; now left|exact Hacc].
Qed.

Lemma collect_items_result (items : list loc) (w : World)
    (purposes : list JsVal) (keys : list string) :
  fst (collect_items items [] [] w) = Normal (purposes, keys) ->
  purposes = requested_purposes (heap w) items []
  /\ keys = requested_keys (heap w) items [].
Proof.
  destruct (collect_items_run items [] [] w) as [w1 [Hrun _]].
  rewrite Hrun. simpl. intros [= <- <-]. auto.
Qed.

(** Where the first separator stands decides both sides of it. *)
Lemma append_separator_inj (c : ascii) (s1 s2 r1 r2 : string) :
  has_char c s1 = false ->
  has_char c s2 = false ->
  (s1 ++ String c r1 = s2 ++ String c r2)%string ->
  s1 = s2 /\ r1 = r2.
Proof.
  revert s2. induction s1 as [|a s1 IH]; intros [|b s2]; simpl.
  - intros _ _ [= ->]. auto.
  - intros _ Hb [= <- _]. rewrite Ascii.eqb_refl in Hb. discriminate.
  - intros Ha _ [= -> _]. rewrite Ascii.eqb_refl in Ha. discriminate.
  - intros Ha Hb [= <- H].
    apply orb_false_iff in Ha. destruct Ha as [_ Ha].
    apply orb_false_iff in Hb. destruct Hb as [_ Hb].
    destruct (IH s2 Ha Hb H) as [-> ->]. auto.
Qed.

(** X13.  Slot keys tell slots apart as long as no purposeId contains "/" and
    no attributeId contains ".": two items with the same key then agree on
    the purposeId, attributeId and accessTypeId parts of the key. *)
Theorem item_name_injective (o1 o2 : JsObj) :
  has_char "/" (to_string (obj_get o1 "purposeId")) = false ->
  has_char "/" (to_string (obj_get o2 "purposeId")) = false ->
  has_char "."
    (to_string (StringUtils.getOrDefault (obj_get o1 "attributeId") (VStr ""))) = false ->
  has_char "."
    (to_string (StringUtils.getOrDefault (obj_get o2 "attributeId") (VStr ""))) = false ->
  item_name o1 = item_name o2 ->
  to_string (obj_get o1 "purposeId") = to_string (obj_get o2 "purposeId")
  /\ to_string (StringUtils.getOrDefault (obj_get o1 "attributeId") (VStr ""))
     = to_string (StringUtils.getOrDefault (obj_get o2 "attributeId") (VStr ""))
  /\ to_string (StringUtils.getOrDefault (obj_get o1 "accessTypeId") (VStr ""))
     = to_string (StringUtils.getOrDefault (obj_get o2 "accessTypeId") (VStr "")).
Proof.
  unfold item_name. intros Hp1 Hp2 Ha1 Ha2 H.
  change ("/" ++ ?x)%string with (String "/" x) in H.
  simpl in H.
  destruct (append_separator_inj _ _ _ _ _ Hp1 Hp2 H) as [Hp Hrest].
  destruct (append_separator_inj _ _ _ _ _ Ha1 Ha2 Hrest) as [Ha Ht].
  auto.
Qed.

(** Without the condition two slots can share a key:
    [{purposeId: "a/b", accessTypeId: "x"}] and
    [{purposeId: "a", attributeId: "b/", accessTypeId: "x"}]. *)
Example item_name_collision :
  item_name [("purposeId", VStr "a/b"); ("accessTypeId", VStr "x")]
  = item_name [("purposeId", VStr "a"); ("attributeId", VStr "b/");
               ("accessTypeId", VStr "x")].
Proof. reflexivity. Qed.

(** X14.  The constructor checks tenantUrl first: when config lacks it the
    error names tenantUrl, whatever auth holds; the error names accessToken
    only when config has tenantUrl and auth lacks accessToken. *)
Theorem constructor_error_message (config auth context : JsVal) (w : World)
    (message : string) :
  fst (constructor config auth context w) = Throw (ConfigurationError message) ->
  (StringUtils.has config "tenantUrl" = false
   /\ message = "Cannot find property 'tenantUrl' in configuration settings.")
  \/ (StringUtils.has config "tenantUrl" = true
      /\ StringUtils.has auth "accessToken" = false
      /\ message = "Cannot find property 'accessToken' in auth").
Proof.
  unfold constructor, throw. simpl.
  destruct (StringUtils.has config "tenantUrl");
    destruct (StringUtils.has auth "accessToken"); simpl;
    intros H; try discriminate; injection H as <-; auto.
Qed.

Section NormalizerProperties.

Variable new_DPCMService : JsVal -> JsVal -> JsVal -> Completion DPCMService.t.

(** X7.  A collaborator failure that has a response is returned as a value by
    both methods, whichever call failed: status "error", with the response's
    data as detail, untouched, when the data is truthy, and with no detail
    when it is missing or falsy. *)
Theorem caught_failure_is_error_value (self : Privacy) (service : DPCMService.t)
    (items : JsVal) (locs : list loc) (purposes : list JsVal) (keys : list string)
    (v response data : JsVal) (w : World) :
  new_service new_DPCMService self w = (Normal service, w) ->
  fst (collect_items locs [] [] w) = Normal (purposes, keys) ->
  get_prop v (KName "response") = Normal response ->
  get_prop response (KName "data") = Normal data ->
  (DPCMService.requestApproval service items = Throw (Thrown v) ->
   fst (assess new_DPCMService self items w)
   = Normal (if truthy data
             then VObj [("status", VStr "error"); ("detail", data)]
             else VObj [("status", VStr "error")]))
  /\ (DPCMService.getConsentMetadata service (VArr purposes) = Throw (Thrown v)
      \/ (exists catalog,
             DPCMService.getConsentMetadata service (VArr purposes) = Normal catalog
             /\ DPCMService.processConsentMetadata service keys catalog
                = Throw (Thrown v)) ->
      fst (getConsentMetadata new_DPCMService self locs w)
      = Normal (if truthy data
                then VObj [("status", VStr "error"); ("detail", data)]
                else VObj [("status", VStr "error")])).
Proof.
  intros Hsvc Hcol Hr Hd. split.
  - intros Hreq.
    rewrite (assess_settled new_DPCMService self service items w Hsvc), Hreq.
    now rewrite (catch_block_response v response data _ Hr Hd).
  - destruct (collect_items_result locs w purposes keys Hcol) as [-> ->].
    destruct (getConsentMetadata_settled new_DPCMService self service locs w Hsvc)
      as [w1 [_ [_ Hrun]]].
    rewrite Hrun. simpl.
    intros [Hget|[catalog [Hget Hproc]]]; rewrite Hget; [|rewrite Hproc];
      now rewrite (catch_block_response v response data _ Hr Hd).
Qed.

(** X8.  When both collaborator calls resolve, [getConsentMetadata] resolves
    with status "done" and, as metadata, exactly what [processConsentMetadata]
    resolved with; the catalog handed to [processConsentMetadata] is what
    [getConsentMetadata] of the client resolved with for the purposes of the
    items. *)
Theorem metadata_done (self : Privacy) (service : DPCMService.t)
    (items : list loc) (purposes : list JsVal) (keys : list string)
    (catalog metadata : JsVal) (w : World) :
  new_service new_DPCMService self w = (Normal service, w) ->
  fst (collect_items items [] [] w) = Normal (purposes, keys) ->
  DPCMService.getConsentMetadata service (VArr purposes) = Normal catalog ->
  DPCMService.processConsentMetadata service keys catalog = Normal metadata ->
  fst (getConsentMetadata new_DPCMService self items w)
  = Normal (VObj [("status", VStr "done"); ("metadata", metadata)])
  /\ calls (snd (getConsentMetadata new_DPCMService self items w))
     = calls w ++ [Call_getConsentMetadata (VArr purposes);
                   Call_processConsentMetadata keys catalog].
Proof.
  intros Hsvc Hcol Hget Hproc.
  destruct (collect_items_result items w purposes keys Hcol) as [-> ->].
  destruct (getConsentMetadata_settled new_DPCMService self service items w Hsvc)
    as [w1 [Hcalls [_ Hrun]]].
  rewrite Hrun. simpl. rewrite Hget, Hproc. simpl.
  rewrite Hcalls, <- app_assoc. auto.
Qed.

(** X9.  [getConsentMetadata] always asks the client for the catalog first,
    with the purposes of the items, also when the list of items is empty; and
    when that call rejects, [processConsentMetadata] is not called at all. *)
Theorem metadata_catalog_call_first (self : Privacy) (service : DPCMService.t)
    (items : list loc) (purposes : list JsVal) (keys : list string) (w : World) :
  new_service new_DPCMService self w = (Normal service, w) ->
  fst (collect_items items [] [] w) = Normal (purposes, keys) ->
  (exists later,
      calls (snd (getConsentMetadata new_DPCMService self items w))
      = calls w ++ Call_getConsentMetadata (VArr purposes) :: later)
  /\ (forall error,
        DPCMService.getConsentMetadata service (VArr purposes) = Throw error ->
        calls (snd (getConsentMetadata new_DPCMService self items w))
        = calls w ++ [Call_getConsentMetadata (VArr purposes)])
  /\ (items = [] -> purposes = [] /\ keys = []).
Proof.
  intros Hsvc Hcol.
  destruct (collect_items_result items w purposes keys Hcol) as [-> ->].
  destruct (getConsentMetadata_settled new_DPCMService self service items w Hsvc)
    as [w1 [Hcalls [_ Hrun]]].
  rewrite Hrun. simpl.
  split; [|split].
  - destruct (DPCMService.getConsentMetadata service
                (VArr (requested_purposes (heap w) items []))) as [catalog|error].
    + destruct (DPCMService.processConsentMetadata service
                  (requested_keys (heap w) items []) catalog) as [metadata|error].
      * eexists. simpl. rewrite Hcalls, <- app_assoc. reflexivity.
      * eexists.
        match goal with
        | |- context [catch_block error ?w0] =>
            destruct (catch_block_pure error w0 w) as [-> _]
        end.
        simpl. rewrite Hcalls, <- app_assoc. reflexivity.
    + exists [].
      match goal with
      | |- context [catch_block error ?w0] =>
          destruct (catch_block_pure error w0 w) as [-> _]
      end.
      simpl. now rewrite Hcalls.
  - intros error Hget. rewrite Hget.
    match goal with
    | |- context [catch_block error ?w0] =>
        destruct (catch_block_pure error w0 w) as [-> _]
    end.
    simpl. now rewrite Hcalls.
  - intros ->. auto.
Qed.

(** X10.  The purposes sent to the client are the purposeIds of the items,
    each once: when the purposeIds are strings (or other primitives), the list
    holds no value twice and holds exactly the purposeIds that occur. *)
Theorem purposes_are_distinct (items : list loc) (purposes : list JsVal)
    (keys : list string) (w : World) :
  fst (collect_items items [] [] w) = Normal (purposes, keys) ->
  (forall item, In item items ->
                is_primitive (obj_get (heap w item) "purposeId") = true) ->
  NoDup purposes
  /\ (forall p, In p purposes
                <-> exists item, In item items
                                 /\ p = obj_get (heap w item) "purposeId")
  /\ length purposes <= length items.
Proof.
  intros Hcol Hprim.
  destruct (collect_items_result items w purposes keys Hcol) as [-> _].
  split; [apply NoDup_requested_purposes; [exact Hprim|constructor]|].
  split.
  - intros p. rewrite In_requested_purposes. simpl. split.
    + intros [[]|H]. exact H.
    + auto.
  - unfold requested_purposes.
    assert (H : forall l acc,
               length (fold_left
                         (fun acc item =>
                            Set_add same_value_zero acc
                              (obj_get (heap w item) "purposeId")) l acc)
               <= length acc + length l).
    { induction l as [|item l IH]; intros acc; simpl; [lia|].
      specialize (IH (Set_add same_value_zero acc (obj_get (heap w item) "purposeId"))).
      assert (length (Set_add same_value_zero acc (obj_get (heap w item) "purposeId"))
              <= S (length acc)).
      { unfold Set_add.
        destruct (existsb (same_value_zero (obj_get (heap w item) "purposeId")) acc);
          [lia|rewrite length_app; simpl; lia]. }
      lia. }
    apply (H items []).
Qed.

(** X11.  The access type is overwritten exactly when it is falsy: after the
    call, each listed item has its former accessTypeId when that was truthy
    and "default" otherwise - an empty string, 0 or false is replaced like a
    missing or null one - so no listed item is left without an access type. *)
Theorem accessType_replaced_iff_falsy (self : Privacy) (service : DPCMService.t)
    (items : list loc) (item : loc) (w : World) :
  new_service new_DPCMService self w = (Normal service, w) ->
  In item items ->
  obj_get (heap (snd (getConsentMetadata new_DPCMService self items w)) item)
    "accessTypeId"
  = (if truthy (obj_get (heap w item) "accessTypeId")
     then obj_get (heap w item) "accessTypeId"
     else VStr "default")
  /\ truthy
       (obj_get (heap (snd (getConsentMetadata new_DPCMService self items w)) item)
          "accessTypeId") = true.
Proof.
  intros Hsvc Hin.
  destruct (getConsentMetadata_effects new_DPCMService self service items w Hsvc)
    as [outcome [log Heff]].
  destruct (Heff w eq_refl eq_refl) as [_ [_ Hheap]].
  rewrite Hheap, (defaulted_In _ _ _ Hin).
  split; [|apply with_default_accessType_truthy].
  destruct (truthy (obj_get (heap w item) "accessTypeId")) eqn:Ht.
  - now rewrite (with_default_accessType_kept _ Ht).
  - rewrite (with_default_accessType_set _ Ht). apply obj_get_set_same.
Qed.

(** X12.  Defaulting happens once: a second call on the same items changes
    no item any more and builds the same purposes and the same slot keys as
    the first. *)
Theorem second_call_changes_nothing (self : Privacy) (service : DPCMService.t)
    (items : list loc) (w : World) :
  new_service new_DPCMService self w = (Normal service, w) ->
  (forall l,
      heap (snd (getConsentMetadata new_DPCMService self items
                   (snd (getConsentMetadata new_DPCMService self items w)))) l
      = heap (snd (getConsentMetadata new_DPCMService self items w)) l)
  /\ fst (collect_items items [] []
            (snd (getConsentMetadata new_DPCMService self items w)))
     = fst (collect_items items [] [] w).
Proof.
  intros Hsvc.
  destruct (getConsentMetadata_effects new_DPCMService self service items w Hsvc)
    as [outcome [log Heff]].
  destruct (Heff w eq_refl eq_refl) as [_ [_ Hheap]].
  set (w1 := snd (getConsentMetadata new_DPCMService self items w)) in *.
  assert (Hwd : forall l, with_default_accessType (heap w1 l)
                          = with_default_accessType (heap w l)).
  { intros l. rewrite Hheap. unfold defaulted.
    destruct (existsb (Nat.eqb l) items); [|reflexivity].
    apply with_default_accessType_idem. }
  assert (Hp : forall l, obj_get (heap w1 l) "purposeId"
                         = obj_get (heap w l) "purposeId").
  { intros l. rewrite Hheap. unfold defaulted.
    destruct (existsb (Nat.eqb l) items); [|reflexivity].
    apply with_default_accessType_other. discriminate. }
  split.
  - intros l.
    destruct (Heff w1 (requested_purposes_ext _ _ _ _ Hp)
                (requested_keys_ext _ _ _ _ Hwd)) as [_ [_ Hheap1]].
    rewrite Hheap1. unfold defaulted.
    destruct (existsb (Nat.eqb l) items) eqn:E; [|reflexivity].
    rewrite Hheap. unfold defaulted. rewrite E.
    apply with_default_accessType_idem.
  - destruct (collect_items_run items [] [] w1) as [w2 [-> _]].
    destruct (collect_items_run items [] [] w) as [w3 [-> _]].
    simpl.
    now rewrite (requested_purposes_ext _ _ _ _ Hp),
      (requested_keys_ext _ _ _ _ Hwd).
Qed.

(** X15.  The client is constructed outside the [try] of both methods: when
    its constructor throws, or when the stored config is null or undefined,
    the promise is rejected with that very error (it is not turned into a
    status "error" value), no collaborator call is made and no item is
    touched. *)
Theorem client_construction_failure_propagates (self : Privacy)
    (items : JsVal) (locs : list loc) (w : World) :
  (forall tenantUrl e,
      get_prop (_config self) (KName "tenantUrl") = Normal tenantUrl ->
      new_DPCMService (_auth self) tenantUrl (_context self) = Throw e ->
      assess new_DPCMService self items w = (Throw e, w)
      /\ getConsentMetadata new_DPCMService self locs w = (Throw e, w))
  /\ (is_nullish (_config self) = true ->
      assess new_DPCMService self items w = (Throw TypeError, w)
      /\ getConsentMetadata new_DPCMService self locs w = (Throw TypeError, w)).
Proof.
  unfold assess, getConsentMetadata, new_service, lift. simpl.
  split.
  - intros tenantUrl e -> ->. auto.
  - intros Hn. destruct (_config self); simpl in *; try discriminate; auto.
Qed.

End NormalizerProperties.

(** ** The further properties at work *)

Lemma assess_status_range_witness :
  exists s,
    get_prop (VObj [("status", VStr "consent");
                    ("assessment", VArr [approved_item; consent_item])])
      (KName "status") = Normal (VStr s)
    /\ is_status s.
Proof.
  destruct (assess_status_range (stub_factory echo_service) sample_privacy
              echo_service (VArr [approved_item; consent_item])
              (VObj [("status", VStr "consent");
                     ("assessment", VArr [approved_item; consent_item])])
              empty_world eq_refl eq_refl) as [s [Hs [Hrange _]]].
  exists s. split; assumption.
Defined.

Lemma assess_single_call_witness :
  calls (snd (assess
                (stub_factory
                   (stub_service (Throw (Thrown network_failure))
                      (Throw TypeError) (Throw TypeError)))
                sample_privacy (VArr []) sample_world))
  = [Call_requestApproval (VArr [])].
Proof.
  exact (proj1 (assess_single_call
                  (stub_factory
                     (stub_service (Throw (Thrown network_failure))
                        (Throw TypeError) (Throw TypeError)))
                  sample_privacy
                  (stub_service (Throw (Thrown network_failure))
                     (Throw TypeError) (Throw TypeError))
                  (VArr []) sample_world eq_refl)).
Defined.

Lemma assess_resolves_iff_readable_witness :
  fst (assess (stub_factory echo_service) sample_privacy
         (VArr [approved_item; VNull]) empty_world)
  = Throw TypeError.
Proof.
  apply (proj2 (assess_resolves_iff_readable (stub_factory echo_service)
                  sample_privacy echo_service (VArr [approved_item; VNull])
                  [approved_item; VNull] empty_world eq_refl eq_refl)).
  exists VNull. split; [right; left; reflexivity|reflexivity].
Defined.

Lemma assess_order_irrelevant_witness :
  status_of (fst (assess (stub_factory echo_service) sample_privacy
                    (VArr [consent_item; approved_item]) empty_world))
  = status_of (fst (assess (stub_factory echo_service) sample_privacy
                      (VArr [approved_item; consent_item]) empty_world)).
Proof.
  apply (assess_order_irrelevant (stub_factory echo_service) sample_privacy
           echo_service (VArr [consent_item; approved_item])
           (VArr [approved_item; consent_item])
           [consent_item; approved_item] [approved_item; consent_item]
           empty_world eq_refl eq_refl eq_refl).
  apply perm_swap.
Defined.

Lemma assess_status_only_if_witness :
  exists ia, In ia [approved_item; consent_item] /\ requires_consent ia = true.
Proof.
  apply (proj1 (assess_status_only_if (stub_factory echo_service) sample_privacy
                  echo_service (VArr [approved_item; consent_item])
                  [approved_item; consent_item] empty_world eq_refl eq_refl)).
  reflexivity.
Defined.

Lemma assess_more_items_never_lower_witness :
  returns_status
    (fst (assess (stub_factory echo_service) sample_privacy
            (VArr [approved_item; denied_item; consent_item]) empty_world))
    "approved"
  \/ returns_status
       (fst (assess (stub_factory echo_service) sample_privacy
               (VArr [approved_item; denied_item; consent_item]) empty_world))
       "consent".
Proof.
  apply (proj2 (assess_more_items_never_lower (stub_factory echo_service)
                  sample_privacy echo_service (VArr [approved_item])
                  (VArr [approved_item; denied_item; consent_item])
                  [approved_item] [denied_item; consent_item] empty_world
                  eq_refl eq_refl eq_refl eq_refl)).
  reflexivity.
Defined.

Lemma caught_failure_is_error_value_witness :
  fst (assess
         (stub_factory
            (stub_service (Throw (Thrown empty_response_failure))
               (Normal (VObj [])) (Throw (Thrown empty_response_failure))))
         sample_privacy (VArr []) sample_world)
  = Normal (VObj [("status", VStr "error")])
  /\ fst (getConsentMetadata
            (stub_factory
               (stub_service (Throw (Thrown empty_response_failure))
                  (Normal (VObj [])) (Throw (Thrown empty_response_failure))))
            sample_privacy [0; 1; 2] sample_world)
     = Normal (VObj [("status", VStr "error")]).
Proof.
  destruct (caught_failure_is_error_value
              (stub_factory
                 (stub_service (Throw (Thrown empty_response_failure))
                    (Normal (VObj [])) (Throw (Thrown empty_response_failure))))
              sample_privacy
              (stub_service (Throw (Thrown empty_response_failure))
                 (Normal (VObj [])) (Throw (Thrown empty_response_failure)))
              (VArr []) [0; 1; 2] [VStr "p1"; VStr "p2"]
              ["p1/.default"; "p2/email.default"]
              empty_response_failure (VObj [("status", VNum 500)]) VUndefined
              sample_world eq_refl eq_refl eq_refl eq_refl) as [Hassess Hmeta].
  split.
  - apply Hassess. reflexivity.
  - apply Hmeta. right. exists (VObj []). split; reflexivity.
Defined.

Lemma metadata_done_witness :
  fst (getConsentMetadata (stub_factory echo_service) sample_privacy
         [0; 1; 2] sample_world)
  = Normal (VObj [("status", VStr "done");
                  ("metadata", VArr [VStr "p1"; VStr "p2"])]).
Proof.
  apply (proj1 (metadata_done (stub_factory echo_service) sample_privacy
                  echo_service [0; 1; 2] [VStr "p1"; VStr "p2"]
                  ["p1/.default"; "p2/email.default"]
                  (VArr [VStr "p1"; VStr "p2"]) (VArr [VStr "p1"; VStr "p2"])
                  sample_world eq_refl eq_refl eq_refl eq_refl)).
Defined.

Lemma metadata_catalog_call_first_witness :
  calls (snd (getConsentMetadata
                (stub_factory
                   (stub_service (Throw TypeError)
                      (Throw (Thrown network_failure)) (Normal VNull)))
                sample_privacy [] sample_world))
  = [Call_getConsentMetadata (VArr [])].
Proof.
  apply (proj1 (proj2 (metadata_catalog_call_first
                         (stub_factory
                            (stub_service (Throw TypeError)
                               (Throw (Thrown network_failure)) (Normal VNull)))
                         sample_privacy
                         (stub_service (Throw TypeError)
                            (Throw (Thrown network_failure)) (Normal VNull))
                         [] [] [] sample_world eq_refl eq_refl))
           (Thrown network_failure)).
  reflexivity.
Defined.

Lemma purposes_are_distinct_witness :
  NoDup [VStr "p1"; VStr "p2"]
  /\ length [VStr "p1"; VStr "p2"] <= length [0; 1; 2].
Proof.
  destruct (purposes_are_distinct [0; 1; 2] [VStr "p1"; VStr "p2"]
              ["p1/.default"; "p2/email.default"] sample_world eq_refl)
    as [Hnd [_ Hlen]].
  - intros item [<-|[<-|[<-|[]]]]; reflexivity.
  - split; assumption.
Defined.

Lemma accessType_replaced_iff_falsy_witness :
  obj_get (heap (snd (getConsentMetadata (stub_factory echo_service)
                        sample_privacy [0] blank_access_world)) 0)
    "accessTypeId"
  = VStr "default".
Proof.
  apply (proj1 (accessType_replaced_iff_falsy (stub_factory echo_service)
                  sample_privacy echo_service [0] 0 blank_access_world eq_refl
                  (or_introl eq_refl))).
Defined.

Lemma second_call_changes_nothing_witness :
  heap (snd (getConsentMetadata (stub_factory echo_service) sample_privacy [0; 2]
               (snd (getConsentMetadata (stub_factory echo_service)
                       sample_privacy [0; 2] sample_world)))) 2
  = heap (snd (getConsentMetadata (stub_factory echo_service) sample_privacy
                 [0; 2] sample_world)) 2.
Proof.
  apply (proj1 (second_call_changes_nothing (stub_factory echo_service)
                  sample_privacy echo_service [0; 2] sample_world eq_refl)).
Defined.

Lemma item_name_injective_witness :
  to_string (obj_get [("purposeId", VStr "p1"); ("accessTypeId", VStr "read")]
               "purposeId")
  = to_string (obj_get [("accessTypeId", VStr "read"); ("purposeId", VStr "p1")]
                 "purposeId").
Proof.
  apply (item_name_injective
           [("purposeId", VStr "p1"); ("accessTypeId", VStr "read")]
           [("accessTypeId", VStr "read"); ("purposeId", VStr "p1")]
           eq_refl eq_refl eq_refl eq_refl eq_refl).
Defined.

Lemma constructor_error_message_witness :
  (StringUtils.has (VObj []) "tenantUrl" = false
   /\ "Cannot find property 'tenantUrl' in configuration settings."
      = "Cannot find property 'tenantUrl' in configuration settings.")
  \/ (StringUtils.has (VObj []) "tenantUrl" = true
      /\ StringUtils.has (VObj []) "accessToken" = false
      /\ "Cannot find property 'tenantUrl' in configuration settings."
         = "Cannot find property 'accessToken' in auth").
Proof.
  apply (constructor_error_message (VObj []) (VObj []) VUndefined empty_world
           "Cannot find property 'tenantUrl' in configuration settings.").
  reflexivity.
Defined.

Lemma client_construction_failure_propagates_witness :
  assess (failing_factory (Thrown network_failure)) sample_privacy (VArr [])
    sample_world
  = (Throw (Thrown network_failure), sample_world)
  /\ getConsentMetadata (failing_factory (Thrown network_failure)) sample_privacy
       [0; 1; 2] sample_world
     = (Throw (Thrown network_failure), sample_world).
Proof.
  apply (proj1 (client_construction_failure_propagates
                  (failing_factory (Thrown network_failure)) sample_privacy
                  (VArr []) [0; 1; 2] sample_world)
           (VStr "https://tenant.example") (Thrown network_failure));
    reflexivity.
Defined.
